(** * WoodenMart checkout

    A shallow embedding of the [checkout] handler of [main.py] and of the
    pydantic models of [schemas.py] it builds, followed by the properties of
    the checkout flow.

    Python values are an inductive type, floats are IEEE binary64
    ([PrimFloat]), integers are unbounded ([Z]), an exception is a value of
    [exn] carried by the [result] monad, and the two things the handler
    touches outside itself (the document store and the payment processor)
    are an explicit [World] passed in and out. *)

From Stdlib Require Import ZArith Floats Ascii String.
From stdpp Require Import gmap strings list pretty.

Set Default Proof Using "Type".
Set Warnings "-register-all".
Open Scope Z_scope.

(** ** Python values *)

(** What a decoded JSON body or a stored document can hold. *)
Inductive pyval :=
| PyNone
| PyBool (b : bool)
| PyInt (z : Z)
| PyFloat (f : float)
| PyStr (s : string)
| PyList (l : list pyval)
| PyDict (d : list (string * pyval)).

(** A [dict] with string keys, as in [items: List[dict]] and as the fields of a
    stored document. *)
Abbreviation pydict := (gmap string pyval).

(** ** Exceptions *)

Inductive exn :=
| HTTPException (status_code : Z) (detail : string)
| KeyError (key : string)
| TypeError
| ValueError
| OverflowError
| InvalidId
| ValidationError
| PersistenceError
| StripeError (message : string).

Inductive result (A : Type) :=
| Raise (e : exn)
| Return (a : A).
Arguments Raise {A} e.
Arguments Return {A} a.

Definition bind {A B} (m : result A) (k : A -> result B) : result B :=
  match m with
  | Raise e => Raise e
  | Return a => k a
  end.

Notation "x <- m ;; k" := (bind m (fun x => k))
  (at level 100, m at next level, right associativity,
   format "'[v' x  <-  m  ;; '/' k ']'").

(** The status the transport layer answers with: the body of a handler that
    returns is sent with 200, an [HTTPException] with its own status code, and
    any other exception escapes the handler and becomes a 500. *)
Definition status_code_of {A} (r : result A) : Z :=
  match r with
  | Return _ => 200
  | Raise (HTTPException c _) => c
  | Raise _ => 500
  end.

(** ** Numbers *)

(** The double nearest to an integer (ties to even), infinite when the
    integer is out of range. *)
Definition float_of_Z (z : Z) : float :=
  SF2Prim (binary_normalize prec emax z 0 false).

(** [float(n)] for an [int]: the nearest double, [OverflowError] when there is
    none. *)
Definition int_to_float (z : Z) : result float :=
  let f := float_of_Z z in
  if PrimFloat.is_infinity f then Raise OverflowError else Return f.

(** [int(x)] for a [float]: truncation towards zero. *)
Definition float_to_int (f : float) : result Z :=
  match Prim2SF f with
  | S754_nan => Raise ValueError
  | S754_infinity _ => Raise OverflowError
  | S754_zero _ => Return 0
  | S754_finite s m e =>
      let a := Z.shiftl (Z.pos m) e in
      Return (if s then - a else a)
  end.

(** [x * n] with [x] a float and [n] an int: the int is converted first. *)
Definition float_mul_int (x : float) (n : Z) : result float :=
  y <- int_to_float n ;;
  Return (x * y)%float.

(** [d[k]] and [d.get(k, default)]. *)
Definition subscript (d : pydict) (k : string) : result pyval :=
  match d !! k with
  | Some v => Return v
  | None => Raise (KeyError k)
  end.

Definition get (d : pydict) (k : string) (dflt : pyval) : pyval :=
  default dflt (d !! k).

(** ** Libraries the handler calls

    The builtins and third-party calls whose results the source of this
    repository does not determine: parsing a number out of a [str], [bson]'s
    [ObjectId(...)] (the identifier is kept as its [str(...)] form), pydantic's
    [EmailStr] validation (which returns the normalised address), and [str(e)]
    of an exception. Everything below holds for any such library. *)
Class Libraries := {
  int_of_str : string -> result Z;
  float_of_str : string -> result float;
  ObjectId : pyval -> result string;
  EmailStr : string -> result string;
  str_exn : exn -> string;
}.

Section Builtins.
Context {L : Libraries}.

(** [int(v)] *)
Definition py_int (v : pyval) : result Z :=
  match v with
  | PyInt z => Return z
  | PyBool b => Return (if b then 1 else 0)
  | PyFloat f => float_to_int f
  | PyStr s => int_of_str s
  | PyNone | PyList _ | PyDict _ => Raise TypeError
  end.

(** [float(v)] *)
Definition py_float (v : pyval) : result float :=
  match v with
  | PyFloat f => Return f
  | PyInt z => int_to_float z
  | PyBool b => Return (if b then 1 else 0)%float
  | PyStr s => float_of_str s
  | PyNone | PyList _ | PyDict _ => Raise TypeError
  end.
End Builtins.

(** ** schemas.py *)

Module OrderItem.
Record t := Build {
  product_id : string;
  title : string;
  unit_price : float;
  quantity : Z;
  subtotal : float;
}.

(** [OrderItem(product_id=..., title=..., unit_price=..., quantity=...,
    subtotal=...)]: the handler passes a [str], two floats and an [int] it has
    just computed, and whatever the document holds as title, which the model
    accepts only if it is a [str]. *)
Definition init (product_id : string) (title : pyval) (unit_price : float)
    (quantity : Z) (subtotal : float) : result t :=
  match title with
  | PyStr s => Return (Build product_id s unit_price quantity subtotal)
  | _ => Raise ValidationError
  end.
End OrderItem.

Module Order.
Record t := Build {
  user_email : string;
  items : list OrderItem.t;
  total : float;
  currency : string;
  status : string;
  payment_intent_id : option string;
}.

(** [Order(user_email=..., items=..., total=..., ...)]: a keyword that the
    caller leaves out ([None] here) takes the default of the schema:
    [currency = "inr"], [status = "pending"], [payment_intent_id = None]. *)
Definition init {L : Libraries} (user_email : string) (items : list OrderItem.t)
    (total : float) (currency status payment_intent_id : option string) : result t :=
  email <- EmailStr user_email ;;
  Return (Build email items total
            (default "inr" currency)
            (default "pending" status)
            payment_intent_id).
End Order.

(** ** main.py: request model, document store, payment processor *)

Module CheckoutRequest.
Record t := Build {
  items : list pydict;
  customer_email : string;
}.
End CheckoutRequest.

(** A document of the ["product"] collection: its [_id] and its other fields. *)
Record document := { _id : string; fields : pydict }.

Record Database := {
  product : gmap string pydict;
  order : list (string * Order.t);
}.

(** What [stripe.checkout.Session.create] is called with. *)
Module ProductData.
Record t := Build { name : pyval }.
End ProductData.

Module PriceData.
Record t := Build {
  currency : pyval;
  product_data : ProductData.t;
  unit_amount : Z;
}.
End PriceData.

Module LineItem.
Record t := Build {
  price_data : PriceData.t;
  quantity : Z;
}.
End LineItem.

Module Session.
Record params := Build {
  mode : string;
  line_items : list LineItem.t;
  success_url : string;
  cancel_url : string;
  customer_email : string;
}.
End Session.

(** The state outside the handler: the document store ([db] is [None] when no
    database is configured) and the session requests sent to the processor so
    far, oldest first. *)
Record World := {
  db : option Database;
  stripe_sessions : list Session.params;
}.

(** The process environment read at import time and in the handler. *)
Record Environ := {
  STRIPE_SECRET : string;
  FRONTEND_URL : option string;
}.

(** The two collaborators: the identifier the store gives to a new document, and
    the processor's answer to a session request (the [url] attribute of the
    session, or the exception the client library raises). *)
Class Collaborators := {
  inserted_id : Database -> Order.t -> string;
  Session_create : Session.params -> result pyval;
}.

Section Checkout.
Context {L : Libraries} {C : Collaborators}.

(** [db["product"]]: subscripting [None] is a [TypeError]. *)
Definition collection_product (w : World) : result (gmap string pydict) :=
  match db w with
  | None => Raise TypeError
  | Some d => Return (product d)
  end.

(** [coll.find_one({"_id": oid})] *)
Definition find_one (coll : gmap string pydict) (oid : string) : option document :=
  (fun f => {| _id := oid; fields := f |}) <$> coll !! oid.

(** The first three lines of both loop bodies:
<<
    prod = db["product"].find_one({"_id": ObjectId(it["product_id"])})
    if not prod:
        raise HTTPException(status_code=404, detail="Product not found")
>>
    A stored document is never an empty dict (it has its [_id]), so [not prod]
    holds exactly when [find_one] returned [None]. *)
Definition lookup_product (w : World) (it : pydict) : result document :=
  coll <- collection_product w ;;
  pid <- subscript it "product_id" ;;
  oid <- ObjectId pid ;;
  match find_one coll oid with
  | None => Raise (HTTPException 404 "Product not found")
  | Some prod => Return prod
  end.

(** The body of the loop of the simulated branch, up to [items.append]. *)
Definition simulated_line (w : World) (it : pydict) : result OrderItem.t :=
  prod <- lookup_product w it ;;
  qty <- py_int (get it "quantity" (PyInt 1)) ;;
  unit_price <- py_float (get (fields prod) "price" (PyInt 0)) ;;
  subtotal <- float_mul_int unit_price qty ;;
  OrderItem.init (_id prod) (get (fields prod) "title" (PyStr ""))
    unit_price qty subtotal.

(** The loop of the simulated branch, from the values [items] and [total]
    have when it is entered. [total] starts as the int [0]; [0 + x] converts
    it to [0.0], and an [Order] built from an int [0] stores [0.0], so the
    accumulator is a float throughout. *)
Fixpoint simulated_loop (w : World) (its : list pydict)
    (items : list OrderItem.t) (total : float)
    : result (list OrderItem.t * float) :=
  match its with
  | [] => Return (items, total)
  | it :: its' =>
      item <- simulated_line w it ;;
      simulated_loop w its' (items ++ [item]) (total + OrderItem.subtotal item)%float
  end.

(** The body of the loop of the Stripe branch, up to [line_items.append]. *)
Definition stripe_line (w : World) (it : pydict) : result LineItem.t :=
  prod <- lookup_product w it ;;
  qty <- py_int (get it "quantity" (PyInt 1)) ;;
  price <- py_float (get (fields prod) "price" (PyInt 0)) ;;
  unit_amount <- py_int (PyFloat (price * 100)%float) ;;
  Return (LineItem.Build
            (PriceData.Build
               (get (fields prod) "currency" (PyStr "inr"))
               (ProductData.Build (get (fields prod) "title" (PyStr "Item")))
               unit_amount)
            qty).

Fixpoint stripe_loop (w : World) (its : list pydict)
    (line_items : list LineItem.t) : result (list LineItem.t) :=
  match its with
  | [] => Return line_items
  | it :: its' =>
      li <- stripe_line w it ;;
      stripe_loop w its' (line_items ++ [li])
  end.

(** Modelled from the spec: [create_document] of the repository's [database]
    module, which is not among the sources. The spec gives the store the
    contract [insert(collection, record) -> generated_id], has the simulated
    path write one Order document, and makes a failed write fatal to the
    request; here the write fails when no database is configured. *)
Definition create_document (w : World) (data : Order.t) : result (string * World) :=
  match db w with
  | None => Raise PersistenceError
  | Some d =>
      let order_id := inserted_id d data in
      Return (order_id,
              {| db := Some {| product := product d;
                               order := order d ++ [(order_id, data)] |};
                 stripe_sessions := stripe_sessions w |})
  end.

(** [os.getenv("FRONTEND_URL", "http://localhost:3000")] *)
Definition frontend_url (env : Environ) : string :=
  default "http://localhost:3000" (FRONTEND_URL env).

(** [not s] for a [str] *)
Definition str_is_empty (s : string) : bool :=
  match s with
  | EmptyString => true
  | String _ _ => false
  end.

(** [checkout(req)]. The result is what the handler returns or raises,
    together with the world it leaves. *)
Definition checkout (env : Environ) (w : World) (req : CheckoutRequest.t)
    : result pyval * World :=
  if str_is_empty (STRIPE_SECRET env) then
    match
      (acc <- simulated_loop w (CheckoutRequest.items req) [] 0%float ;;
       order <- Order.init (CheckoutRequest.customer_email req) (fst acc) (snd acc)
                  None None None ;;
       create_document w order)
    with
    | Raise e => (Raise e, w)
    | Return (order_id, w') =>
        (Return (PyDict [("success", PyBool true);
                         ("order_id", PyStr order_id);
                         ("payment_simulated", PyBool true)]), w')
    end
  else
    match stripe_loop w (CheckoutRequest.items req) [] with
    | Raise e => (Raise (HTTPException 400 (str_exn e)), w)
    | Return line_items =>
        let params :=
          Session.Build "payment" line_items
            (frontend_url env +:+ "/checkout/success")
            (frontend_url env +:+ "/checkout/cancel")
            (CheckoutRequest.customer_email req) in
        let w' := {| db := db w;
                     stripe_sessions := stripe_sessions w ++ [params] |} in
        match Session_create params with
        | Raise e => (Raise (HTTPException 400 (str_exn e)), w')
        | Return url => (Return (PyDict [("url", url)]), w')
        end
    end.
End Checkout.

(** ** The total the specification describes *)

(** The sum, from zero and in list order, of [unit_price * quantity] over
    priced lines. *)
Definition sum_of_lines (lines : list (float * Z)) : float :=
  fold_left (fun acc l => (acc + fst l * float_of_Z (snd l))%float) lines 0%float.

(** [round(x)] of a float: the nearest integer, ties to even. *)
Definition py_round (f : float) : result Z :=
  match Prim2SF f with
  | S754_nan => Raise ValueError
  | S754_infinity _ => Raise OverflowError
  | S754_zero _ => Return 0
  | S754_finite s m e =>
      let a :=
        match e with
        | Z.neg k =>
            let q := Z.pos m / 2 ^ Z.pos k in
            let r := Z.pos m mod 2 ^ Z.pos k in
            match (2 * r ?= 2 ^ Z.pos k) with
            | Lt => q
            | Eq => if Z.even q then q else q + 1
            | Gt => q + 1
            end
        | _ => Z.shiftl (Z.pos m) e
        end in
      Return (if s then - a else a)
  end.

(** The minor-unit amount the specification asks for. *)
Definition round_minor_units (unit_price : float) : result Z :=
  py_round (unit_price * 100)%float.

(** ** Vocabulary of the properties *)

Section Vocabulary.
Context {L : Libraries}.

(** The catalog has no document for the reference of a cart line. *)
Definition unresolvable (w : World) (it : pydict) : Prop :=
  exists d v oid,
    db w = Some d /\ it !! "product_id" = Some v /\
    ObjectId v = Return oid /\ product d !! oid = None.

(** An order line is the cart line priced from the catalog: the price is read
    from the stored document, the quantity from the cart line, and the
    subtotal is their product. *)
Definition priced_from_catalog (d : Database) (it : pydict) (oi : OrderItem.t) : Prop :=
  exists v oid f,
    it !! "product_id" = Some v /\ ObjectId v = Return oid /\
    product d !! oid = Some f /\
    py_float (get f "price" (PyInt 0)) = Return (OrderItem.unit_price oi) /\
    py_int (get it "quantity" (PyInt 1)) = Return (OrderItem.quantity oi) /\
    OrderItem.subtotal oi
    = (OrderItem.unit_price oi * float_of_Z (OrderItem.quantity oi))%float.

(** Two cart lines name the same product and the same quantity, whatever
    else they carry. *)
Definition same_reference (a b : pydict) : Prop :=
  a !! "product_id" = b !! "product_id" /\ a !! "quantity" = b !! "quantity".

(** The body of a successful simulated checkout. *)
Definition simulated_body (order_id : string) : pyval :=
  PyDict [("success", PyBool true); ("order_id", PyStr order_id);
          ("payment_simulated", PyBool true)].

(** The store after one more order. *)
Definition with_order (d : Database) (order_id : string) (o : Order.t) : Database :=
  {| product := product d; order := order d ++ [(order_id, o)] |}.
End Vocabulary.

(** ** Test doubles and sample data *)

Module Double.

Definition is_digit (c : ascii) : bool :=
  (48 <=? Z.of_N (N_of_ascii c)) && (Z.of_N (N_of_ascii c) <=? 57).

Definition is_hex (c : ascii) : bool :=
  let n := Z.of_N (N_of_ascii c) in
  ((48 <=? n) && (n <=? 57)) || ((97 <=? n) && (n <=? 102))
  || ((65 <=? n) && (n <=? 70)).

Definition lower (c : ascii) : ascii :=
  let n := N_of_ascii c in
  if ((65 <=? Z.of_N n) && (Z.of_N n <=? 90))%Z then ascii_of_N (n + 32) else c.

Fixpoint digits (s : string) (acc : Z) : result Z :=
  match s with
  | EmptyString => Return acc
  | String c s' =>
      if is_digit c
      then digits s' (10 * acc + (Z.of_N (N_of_ascii c) - 48))
      else Raise ValueError
  end.

(** Plain decimal literals with an optional sign. *)
Definition parse_int (s : string) : result Z :=
  match s with
  | EmptyString => Raise ValueError
  | String "-"%char (String _ _ as s') => n <- digits s' 0 ;; Return (- n)
  | String "+"%char (String _ _ as s') => digits s' 0
  | _ => digits s 0
  end.

Definition parse_float (s : string) : result float :=
  n <- parse_int s ;; int_to_float n.

Fixpoint all_chars (p : ascii -> bool) (s : string) : bool :=
  match s with
  | EmptyString => true
  | String c s' => p c && all_chars p s'
  end.

Fixpoint map_chars (f : ascii -> ascii) (s : string) : string :=
  match s with
  | EmptyString => EmptyString
  | String c s' => String (f c) (map_chars f s')
  end.

(** A 24-character hexadecimal [str] is an identifier, printed in lower
    case. *)
Definition object_id (v : pyval) : result string :=
  match v with
  | PyStr s =>
      if (String.length s =? 24)%nat && all_chars is_hex s
      then Return (map_chars lower s)
      else Raise InvalidId
  | _ => Raise TypeError
  end.

Fixpoint count_at (s : string) : nat :=
  match s with
  | EmptyString => 0
  | String c s' => (if Ascii.eqb c "@"%char then 1 else 0) + count_at s'
  end.

(** An address with exactly one [@], kept as it is. *)
Definition email (s : string) : result string :=
  if (count_at s =? 1)%nat then Return s else Raise ValidationError.

Definition describe (e : exn) : string :=
  match e with
  | HTTPException c d => pretty c +:+ ": " +:+ d
  | KeyError k => "'" +:+ k +:+ "'"
  | TypeError => "TypeError"
  | ValueError => "ValueError"
  | OverflowError => "OverflowError"
  | InvalidId => "InvalidId"
  | ValidationError => "ValidationError"
  | PersistenceError => "PersistenceError"
  | StripeError m => m
  end.

#[export] Instance libraries : Libraries := {
  int_of_str := parse_int;
  float_of_str := parse_float;
  ObjectId := object_id;
  EmailStr := email;
  str_exn := describe;
}.

(** A processor that answers every request with the same hosted page. *)
Definition processor_up : Collaborators := {|
  inserted_id := fun d _ => "order-" +:+ pretty (length (order d));
  Session_create := fun _ => Return (PyStr "https://pay.example/session/1");
|}.

(** A processor that refuses every request. *)
Definition processor_down : Collaborators := {|
  inserted_id := fun d _ => "order-" +:+ pretty (length (order d));
  Session_create := fun _ => Raise (StripeError "Invalid API Key provided");
|}.

Definition chair_id : string := "64b7f0c2a1d3e4f5a6b7c8d9".
Definition tray_id : string := "64b7f0c2a1d3e4f5a6b7c8da".
Definition missing_id : string := "000000000000000000000000".

(** A chair at 100.0 and a tray at 19.99 (the double nearest to it, which
    is what the literal [19.99] denotes in Python). *)
Definition tray_price : float := 0x1.3fd70a3d70a3dp+4%float.
Definition chair : pydict :=
  {[ "title" := PyStr "Oak chair"; "price" := PyFloat 100%float;
     "currency" := PyStr "inr" ]}.
Definition tray : pydict :=
  {[ "title" := PyStr "Walnut tray"; "price" := PyFloat tray_price;
     "currency" := PyStr "usd" ]}.

Definition catalog : Database :=
  {| product := {[ chair_id := chair; tray_id := tray ]}; order := [] |}.

Definition world : World := {| db := Some catalog; stripe_sessions := [] |}.

Definition simulated : Environ := {| STRIPE_SECRET := ""; FRONTEND_URL := None |}.
Definition configured : Environ :=
  {| STRIPE_SECRET := "sk_test_51"; FRONTEND_URL := None |}.

Definition line (pid : string) (qty : Z) : pydict :=
  {[ "product_id" := PyStr pid; "quantity" := PyInt qty ]}.

Definition cart (its : list pydict) : CheckoutRequest.t :=
  CheckoutRequest.Build its "asha@example.com".

End Double.

(** ** main.py: login *)

(** [str.lower()], which folds case by the interpreter's Unicode tables. *)
Class Text := {
  str_lower : string -> string;
}.

(** The two variables read at import time; [None] is an unset variable. *)
Record AdminEnviron := {
  ADMIN_EMAIL_var : option string;
  ADMIN_PASSWORD_var : option string;
}.

(** [os.getenv("ADMIN_EMAIL", "woodenmart@gmail.com")] *)
Definition ADMIN_EMAIL (env : AdminEnviron) : string :=
  default "woodenmart@gmail.com" (ADMIN_EMAIL_var env).

(** [os.getenv("ADMIN_PASSWORD", "woodenmart@1")] *)
Definition ADMIN_PASSWORD (env : AdminEnviron) : string :=
  default "woodenmart@1" (ADMIN_PASSWORD_var env).

Module AuthRequest.
Record t := Build {
  email : string;
  password : string;
}.
End AuthRequest.

Module AuthResponse.
Record t := Build {
  token : string;
  role : string;
  email : string;
}.

(** [AuthResponse(token=..., role=..., email=...)]: the address goes through
    [EmailStr] once more. *)
Definition init {L : Libraries} (token role email : string) : result t :=
  e <- EmailStr email ;;
  Return (Build token role e).
End AuthResponse.

(** [login(req)] *)
Definition login {L : Libraries} {T : Text} (env : AdminEnviron) (req : AuthRequest.t)
    : result AuthResponse.t :=
  if String.eqb (str_lower (AuthRequest.email req)) (str_lower (ADMIN_EMAIL env))
     && String.eqb (AuthRequest.password req) (ADMIN_PASSWORD env)
  then AuthResponse.init "admin-token" "admin" (AuthRequest.email req)
  else Raise (HTTPException 401 "Invalid credentials").

(** ** main.py: product maintenance *)

Module ProductUpdate.
Record t := Build {
  title : option string;
  description : option string;
  price : option float;
  currency : option string;
  images : option (list string);
  category : option string;
  stock : option Z;
  featured : option bool;
}.

Definition dump {A} (f : A -> pyval) (o : option A) : pyval :=
  match o with
  | Some a => f a
  | None => PyNone
  end.

(** [payload.model_dump()], in the order of the fields. *)
Definition model_dump (p : t) : list (string * pyval) :=
  [("title", dump PyStr (title p));
   ("description", dump PyStr (description p));
   ("price", dump PyFloat (price p));
   ("currency", dump PyStr (currency p));
   ("images", dump (fun l => PyList (map PyStr l)) (images p));
   ("category", dump PyStr (category p));
   ("stock", dump PyInt (stock p));
   ("featured", dump PyBool (featured p))].
End ProductUpdate.

(** [v is not None] *)
Definition is_not_None (v : pyval) : bool :=
  match v with
  | PyNone => false
  | _ => true
  end.

(** [{k: v for k, v in payload.model_dump().items() if v is not None}] *)
Definition update_data (payload : ProductUpdate.t) : pydict :=
  list_to_map
    (List.filter (fun kv => is_not_None (snd kv)) (ProductUpdate.model_dump payload)).

(** What the driver and the server do with a [$set] document before any
    document is matched: [Some e] when they refuse it with [e] (an integer
    that does not fit BSON, an empty [$set] on a server that rejects one),
    [None] when they take it. *)
Class Mongo := {
  refuses : pydict -> option exn;
}.

(** [coll.update_one({"_id": oid}, {"$set": data})]: the collection afterwards
    and [matched_count]. The fields of [data] replace or extend those of the
    matched document; nothing is inserted when none matches. *)
Definition update_one (coll : gmap string pydict) (oid : string) (data : pydict)
    : gmap string pydict * Z :=
  match coll !! oid with
  | None => (coll, 0)
  | Some f => (<[oid := data ∪ f]> coll, 1)
  end.

(** [coll.delete_one({"_id": oid})]: the collection afterwards and
    [deleted_count]. *)
Definition delete_one (coll : gmap string pydict) (oid : string)
    : gmap string pydict * Z :=
  match coll !! oid with
  | None => (coll, 0)
  | Some _ => (delete oid coll, 1)
  end.

(** The world with another ["product"] collection. *)
Definition with_products (w : World) (d : Database) (coll : gmap string pydict) : World :=
  {| db := Some {| product := coll; order := order d |};
     stripe_sessions := stripe_sessions w |}.

(** [update_product(product_id, payload)] *)
Definition update_product {L : Libraries} {M : Mongo}
    (w : World) (product_id : string) (payload : ProductUpdate.t)
    : result pyval * World :=
  match db w with
  | None => (Raise (HTTPException 500 "Database not configured"), w)
  | Some d =>
      let data := update_data payload in
      match ObjectId (PyStr product_id) with
      | Raise e => (Raise e, w)
      | Return oid =>
          match refuses data with
          | Some e => (Raise e, w)
          | None =>
              let res := update_one (product d) oid data in
              if snd res =? 0
              then (Raise (HTTPException 404 "Product not found"),
                    with_products w d (fst res))
              else (Return (PyDict [("updated", PyBool true)]),
                    with_products w d (fst res))
          end
      end
  end.

(** [delete_product(product_id)] *)
Definition delete_product {L : Libraries}
    (w : World) (product_id : string) : result pyval * World :=
  match db w with
  | None => (Raise (HTTPException 500 "Database not configured"), w)
  | Some d =>
      match ObjectId (PyStr product_id) with
      | Raise e => (Raise e, w)
      | Return oid =>
          let res := delete_one (product d) oid in
          if snd res =? 0
          then (Raise (HTTPException 404 "Product not found"),
                with_products w d (fst res))
          else (Return (PyDict [("deleted", PyBool true)]),
                with_products w d (fst res))
      end
  end.

(** ** main.py: listings *)

(** [get_documents(collection_name)] of the repository's [database] module,
    which is not among the sources: the documents it hands back, each with
    its [_id], or the exception it raises. *)
Class Documents := {
  get_documents : World -> string -> result (list document);
}.

(** The body of the loop of both listings: [p["id"] = str(p.pop("_id"))]. *)
Definition expose_id (p : document) : pydict :=
  <["id" := PyStr (_id p)]> (fields p).

(** [list_products()] *)
Definition list_products {D : Documents} (w : World) : result (list pydict) :=
  products <- get_documents w "product" ;;
  Return (map expose_id products).

(** [list_orders()] *)
Definition list_orders {D : Documents} (w : World) : result (list pydict) :=
  orders <- get_documents w "order" ;;
  Return (map expose_id orders).

(** ** Vocabulary of the further properties *)

(** A cart line goes through the loop of the simulated branch. *)
Definition goes_through {L : Libraries} (w : World) (it : pydict) (oi : OrderItem.t) : Prop :=
  simulated_line w it = Return oi.

(** A cart line goes through the loop of the Stripe branch. *)
Definition is_sent {L : Libraries} (w : World) (it : pydict) (li : LineItem.t) : Prop :=
  stripe_line w it = Return li.

(** The session request the Stripe branch builds from its line items. *)
Definition session_request (env : Environ) (req : CheckoutRequest.t)
    (line_items : list LineItem.t) : Session.params :=
  Session.Build "payment" line_items
    (frontend_url env +:+ "/checkout/success")
    (frontend_url env +:+ "/checkout/cancel")
    (CheckoutRequest.customer_email req).

(** ** Further test doubles *)

Module Backoffice.
Import Double.

(** Case folding of the ASCII letters. *)
#[export] Instance text : Text := {
  str_lower := map_chars lower;
}.

(** A server that takes every [$set] document. *)
#[export] Instance mongo : Mongo := {
  refuses := fun _ => None;
}.

Definition order_item_dump (oi : OrderItem.t) : pyval :=
  PyDict [("product_id", PyStr (OrderItem.product_id oi));
          ("title", PyStr (OrderItem.title oi));
          ("unit_price", PyFloat (OrderItem.unit_price oi));
          ("quantity", PyInt (OrderItem.quantity oi));
          ("subtotal", PyFloat (OrderItem.subtotal oi))].

Definition order_dump (o : Order.t) : pydict :=
  {[ "user_email" := PyStr (Order.user_email o);
     "items" := PyList (map order_item_dump (Order.items o));
     "total" := PyFloat (Order.total o);
     "currency" := PyStr (Order.currency o);
     "status" := PyStr (Order.status o);
     "payment_intent_id" := ProductUpdate.dump PyStr (Order.payment_intent_id o) ]}.

(** A reader that hands back the documents of the named collection. *)
#[export] Instance documents : Documents := {
  get_documents := fun w collection_name =>
    match db w with
    | None => Raise PersistenceError
    | Some d =>
        if String.eqb collection_name "product"
        then Return (map (fun kf => {| _id := fst kf; fields := snd kf |})
                       (map_to_list (product d)))
        else if String.eqb collection_name "order"
        then Return (map (fun ko => {| _id := fst ko; fields := order_dump (snd ko) |})
                       (order d))
        else Return []
    end;
}.

Definition unset : AdminEnviron :=
  {| ADMIN_EMAIL_var := None; ADMIN_PASSWORD_var := None |}.

Definition reprice (p : float) : ProductUpdate.t :=
  ProductUpdate.Build None None (Some p) None None None None None.

Definition reference (pid : string) : pydict :=
  {[ "product_id" := PyStr pid ]}.

(** Cart lines that do not go through. *)
Definition worded : pydict :=
  {[ "product_id" := PyStr chair_id; "quantity" := PyStr "two" ]}.
Definition nameless : pydict :=
  {[ "quantity" := PyInt 1 ]}.
Definition unquantified : pydict :=
  {[ "product_id" := PyStr chair_id; "quantity" := PyNone ]}.

(** What the two loops make of [q] chairs. *)
Definition chair_item (q : Z) : OrderItem.t :=
  OrderItem.Build chair_id "Oak chair" 100 q (100 * float_of_Z q)%float.
Definition chair_sent (q : Z) : LineItem.t :=
  LineItem.Build
    (PriceData.Build (PyStr "inr") (ProductData.Build (PyStr "Oak chair")) 10000) q.

(** A catalog with a third document that has an identifier and nothing else. *)
Definition bare_id : string := "64b7f0c2a1d3e4f5a6b7c8db".
Definition stockroom : World :=
  {| db := Some {| product := {[ chair_id := chair; tray_id := tray; bare_id := ∅ ]};
                   order := [] |};
     stripe_sessions := [] |}.

(** A catalog with a stool whose price is stored as an integer and which has
    no title. *)
Definition stool_id : string := "64b7f0c2a1d3e4f5a6b7c8dc".
Definition stool : pydict := {[ "price" := PyInt 40 ]}.
Definition showroom_db : Database :=
  {| product := {[ chair_id := chair; tray_id := tray; stool_id := stool ]};
     order := [] |}.
Definition showroom : World := {| db := Some showroom_db; stripe_sessions := [] |}.

End Backoffice.

(** * Properties *)

(** ** The error monad *)

Lemma bind_Return {A B} (m : result A) (k : A -> result B) b :
  bind m k = Return b -> exists a, m = Return a /\ k a = Return b.
Proof. destruct m as [e|a]; simpl; [discriminate | eauto]. Qed.

Lemma bind_Raise {A B} (m : result A) (k : A -> result B) e :
  m = Raise e -> bind m k = Raise e.
Proof. intros ->. reflexivity. Qed.

Ltac inv_bind H :=
  let a := fresh "a" in
  let Ha := fresh "E" in
  apply bind_Return in H; destruct H as (a & Ha & H).

(** ** Numbers *)

Lemma int_to_float_Return z f : int_to_float z = Return f -> f = float_of_Z z.
Proof.
  unfold int_to_float. destruct (is_infinity (float_of_Z z)); congruence.
Qed.

Lemma float_mul_int_Return x n f :
  float_mul_int x n = Return f -> f = (x * float_of_Z n)%float.
Proof.
  unfold float_mul_int. intros Hf. inv_bind Hf.
  apply int_to_float_Return in E. congruence.
Qed.

Section Loops.
Context {L : Libraries} {C : Collaborators}.

(** ** The catalog lookup *)

Lemma lookup_product_Return w it prod :
  lookup_product w it = Return prod ->
  exists d v,
    db w = Some d /\ it !! "product_id" = Some v /\
    ObjectId v = Return (_id prod) /\ product d !! _id prod = Some (fields prod).
Proof.
  unfold lookup_product, collection_product, subscript, find_one.
  destruct (db w) as [d|]; [simpl | discriminate].
  destruct (it !! "product_id") as [v|]; [simpl | discriminate].
  destruct (ObjectId v) as [e|oid] eqn:Eo; [discriminate | simpl].
  destruct (product d !! oid) as [f|] eqn:Ef; simpl; [| discriminate].
  intros [= <-]. simpl. exists d, v. auto.
Qed.

Lemma lookup_product_unresolvable w it :
  unresolvable w it ->
  lookup_product w it = Raise (HTTPException 404 "Product not found").
Proof.
  intros (d & v & oid & Hd & Hv & Ho & Hp).
  unfold lookup_product, collection_product, subscript, find_one.
  rewrite Hd. simpl. rewrite Hv. simpl. rewrite Ho. simpl. rewrite Hp.
  reflexivity.
Qed.

Lemma lookup_product_same_reference w a b :
  a !! "product_id" = b !! "product_id" ->
  lookup_product w a = lookup_product w b.
Proof.
  intros Hab. unfold lookup_product, subscript. rewrite Hab. reflexivity.
Qed.

(** ** The two loops *)

Lemma simulated_loop_Return w its : forall items total items' total',
  simulated_loop w its items total = Return (items', total') ->
  exists new,
    Forall2 (fun it oi => simulated_line w it = Return oi) its new /\
    items' = items ++ new /\
    total' = fold_left (fun t oi => (t + OrderItem.subtotal oi)%float) new total.
Proof.
  induction its as [|it its IH]; simpl; intros items total items' total' Hl.
  - injection Hl as <- <-. exists []. rewrite app_nil_r. auto.
  - inv_bind Hl. apply IH in Hl as (new & Hnew & -> & ->).
    exists (a :: new). rewrite <- app_assoc. simpl. auto.
Qed.

Lemma simulated_loop_complete w its new :
  Forall2 (fun it oi => simulated_line w it = Return oi) its new ->
  forall items total,
    simulated_loop w its items total
    = Return (items ++ new,
              fold_left (fun t oi => (t + OrderItem.subtotal oi)%float) new total).
Proof.
  induction 1 as [|it oi its new Hit _ IH]; simpl; intros items total.
  - rewrite app_nil_r. reflexivity.
  - rewrite Hit. simpl. rewrite IH, <- app_assoc. reflexivity.
Qed.

Lemma simulated_loop_Raise w its :
  Exists (fun it => exists e, simulated_line w it = Raise e) its ->
  forall items total, exists e, simulated_loop w its items total = Raise e.
Proof.
  induction its as [|it its IH]; intros Hex items total.
  - inversion Hex.
  - simpl. destruct (simulated_line w it) as [e|oi] eqn:Hit; simpl; [eauto |].
    apply IH. inversion Hex as [? ? (e & He)|]; subst; [congruence | assumption].
Qed.

Lemma simulated_loop_ext w its1 its2 :
  Forall2 (fun a b => simulated_line w a = simulated_line w b) its1 its2 ->
  forall items total,
    simulated_loop w its1 items total = simulated_loop w its2 items total.
Proof.
  induction 1 as [|a b its1 its2 Hab _ IH]; simpl; intros items total;
    [reflexivity |].
  rewrite Hab. destruct (simulated_line w b); simpl; auto.
Qed.


Lemma stripe_loop_Raise w its :
  Exists (fun it => exists e, stripe_line w it = Raise e) its ->
  forall line_items, exists e, stripe_loop w its line_items = Raise e.
Proof.
  induction its as [|it its IH]; intros Hex lis.
  - inversion Hex.
  - simpl. destruct (stripe_line w it) as [e|li] eqn:Hit; simpl; [eauto |].
    apply IH. inversion Hex as [? ? (e & He)|]; subst; [congruence | assumption].
Qed.

Lemma stripe_loop_ext w its1 its2 :
  Forall2 (fun a b => stripe_line w a = stripe_line w b) its1 its2 ->
  forall line_items,
    stripe_loop w its1 line_items = stripe_loop w its2 line_items.
Proof.
  induction 1 as [|a b its1 its2 Hab _ IH]; simpl; intros lis; [reflexivity |].
  rewrite Hab. destruct (stripe_line w b); simpl; auto.
Qed.
End Loops.

Section Handler.
Context {L : Libraries} {C : Collaborators}.

(** ** One line of either loop *)

Lemma simulated_line_Return w it oi :
  simulated_line w it = Return oi ->
  exists prod,
    lookup_product w it = Return prod /\
    py_int (get it "quantity" (PyInt 1)) = Return (OrderItem.quantity oi) /\
    py_float (get (fields prod) "price" (PyInt 0)) = Return (OrderItem.unit_price oi) /\
    OrderItem.subtotal oi
    = (OrderItem.unit_price oi * float_of_Z (OrderItem.quantity oi))%float /\
    OrderItem.product_id oi = _id prod /\
    get (fields prod) "title" (PyStr "") = PyStr (OrderItem.title oi).
Proof.
  unfold simulated_line. intros Hl.
  inv_bind Hl. rename a into prod, E into Hprod.
  inv_bind Hl. rename a into qty, E into Hqty.
  inv_bind Hl. rename a into unit_price, E into Hprice.
  inv_bind Hl. rename a into subtotal, E into Hsub.
  apply float_mul_int_Return in Hsub.
  unfold OrderItem.init in Hl.
  destruct (get (fields prod) "title" (PyStr "")) eqn:Ht; try discriminate.
  injection Hl as <-. simpl. exists prod. auto 10.
Qed.

Lemma simulated_line_priced w d it oi :
  db w = Some d ->
  simulated_line w it = Return oi ->
  priced_from_catalog d it oi.
Proof.
  intros Hd Hl.
  apply simulated_line_Return in Hl as (prod & Hp & Hq & Hpr & Hs & _ & _).
  apply lookup_product_Return in Hp as (d' & v & Hd' & Hv & Ho & Hf).
  assert (d' = d) as -> by congruence.
  exists v, (_id prod), (fields prod). auto 10.
Qed.

Lemma simulated_line_ext w a b :
  a !! "product_id" = b !! "product_id" ->
  get a "quantity" (PyInt 1) = get b "quantity" (PyInt 1) ->
  simulated_line w a = simulated_line w b.
Proof.
  intros Hp Hq. unfold simulated_line.
  rewrite (lookup_product_same_reference w a b Hp), Hq. reflexivity.
Qed.

Lemma stripe_line_ext w a b :
  a !! "product_id" = b !! "product_id" ->
  get a "quantity" (PyInt 1) = get b "quantity" (PyInt 1) ->
  stripe_line w a = stripe_line w b.
Proof.
  intros Hp Hq. unfold stripe_line.
  rewrite (lookup_product_same_reference w a b Hp), Hq. reflexivity.
Qed.

Lemma same_reference_get a b :
  same_reference a b ->
  get a "quantity" (PyInt 1) = get b "quantity" (PyInt 1).
Proof. intros [_ Hq]. unfold get. rewrite Hq. reflexivity. Qed.

(** What the Stripe branch sends for a line: the currency and title of the
    stored document, the quantity of the cart line, and the price times one
    hundred cut to an integer. *)
Lemma stripe_line_Return w it li :
  stripe_line w it = Return li ->
  exists prod price,
    lookup_product w it = Return prod /\
    py_float (get (fields prod) "price" (PyInt 0)) = Return price /\
    float_to_int (price * 100)%float
    = Return (PriceData.unit_amount (LineItem.price_data li)) /\
    PriceData.currency (LineItem.price_data li)
    = get (fields prod) "currency" (PyStr "inr") /\
    ProductData.name (PriceData.product_data (LineItem.price_data li))
    = get (fields prod) "title" (PyStr "Item") /\
    py_int (get it "quantity" (PyInt 1)) = Return (LineItem.quantity li).
Proof.
  unfold stripe_line. intros Hl.
  inv_bind Hl. rename a into prod, E into Hprod.
  inv_bind Hl. rename a into qty, E into Hqty.
  inv_bind Hl. rename a into price, E into Hprice.
  inv_bind Hl. rename a into amount, E into Hamount.
  injection Hl as <-. simpl. exists prod, price. auto 10.
Qed.

(** ** The handler, branch by branch *)

Lemma str_is_empty_true s : str_is_empty s = true <-> s = "".
Proof. destruct s; simpl; split; congruence. Qed.

Lemma str_is_empty_false s : str_is_empty s = false <-> s <> "".
Proof. destruct s; simpl; split; congruence. Qed.

Lemma create_document_Return w data order_id w' :
  create_document w data = Return (order_id, w') ->
  exists d,
    db w = Some d /\ order_id = inserted_id d data /\
    w' = {| db := Some (with_order d order_id data);
            stripe_sessions := stripe_sessions w |}.
Proof.
  unfold create_document. destruct (db w) as [d|]; [| discriminate].
  intros [= <- <-]. exists d. auto.
Qed.

Lemma simulated_checkout_Return env w req body w' :
  STRIPE_SECRET env = "" ->
  checkout env w req = (Return body, w') ->
  exists d new total email order_id,
    let o := Order.Build email new total "inr" "pending" None in
    db w = Some d /\
    simulated_loop w (CheckoutRequest.items req) [] 0%float = Return (new, total) /\
    EmailStr (CheckoutRequest.customer_email req) = Return email /\
    order_id = inserted_id d o /\
    body = simulated_body order_id /\
    w' = {| db := Some (with_order d order_id o);
            stripe_sessions := stripe_sessions w |}.
Proof.
  intros Henv. unfold checkout. rewrite Henv. simpl.
  destruct (simulated_loop w (CheckoutRequest.items req) [] 0%float)
    as [e|[new total]] eqn:Hloop; simpl; [congruence |].
  unfold Order.init.
  destruct (EmailStr (CheckoutRequest.customer_email req)) as [e|email] eqn:Hmail;
    simpl; [congruence |].
  match goal with
  | |- context [create_document w ?o] =>
      destruct (create_document w o) as [e|[order_id w1]] eqn:Hdoc
  end; [congruence |].
  apply create_document_Return in Hdoc as (d & Hd & Hid & ->).
  intros [= <- <-]. exists d, new, total, email, order_id. simpl. auto 10.
Qed.

Lemma simulated_checkout_Raise env w req e w' :
  STRIPE_SECRET env = "" ->
  checkout env w req = (Raise e, w') ->
  w' = w.
Proof.
  intros Henv. unfold checkout. rewrite Henv. simpl.
  match goal with
  | |- context [match ?m with Raise _ => _ | Return _ => _ end] =>
      destruct m as [e'|[order_id w1]]
  end; congruence.
Qed.

Lemma stripe_checkout_cases env w req :
  STRIPE_SECRET env <> "" ->
  (exists e,
     stripe_loop w (CheckoutRequest.items req) [] = Raise e /\
     checkout env w req = (Raise (HTTPException 400 (str_exn e)), w))
  \/
  (exists line_items params,
     stripe_loop w (CheckoutRequest.items req) [] = Return line_items /\
     params = Session.Build "payment" line_items
                (frontend_url env +:+ "/checkout/success")
                (frontend_url env +:+ "/checkout/cancel")
                (CheckoutRequest.customer_email req) /\
     let w' := {| db := db w; stripe_sessions := stripe_sessions w ++ [params] |} in
     match Session_create params with
     | Raise e => checkout env w req = (Raise (HTTPException 400 (str_exn e)), w')
     | Return url => checkout env w req = (Return (PyDict [("url", url)]), w')
     end).
Proof.
  intros Henv. apply str_is_empty_false in Henv.
  unfold checkout. rewrite Henv.
  destruct (stripe_loop w (CheckoutRequest.items req) []) as [e|lis] eqn:Hloop.
  - left. eauto.
  - right. eexists _, _. split; [reflexivity |]. split; [reflexivity |].
    simpl. destruct (Session_create _); reflexivity.
Qed.

(** In the Stripe branch every failure leaves the handler as a 400. *)
Lemma stripe_checkout_failure_is_400 env w req e :
  STRIPE_SECRET env <> "" ->
  (checkout env w req).1 = Raise e ->
  exists detail, e = HTTPException 400 detail.
Proof.
  intros Henv.
  destruct (stripe_checkout_cases env w req Henv)
    as [(e' & _ & ->)|(lis & params & _ & _ & Hc)]; simpl.
  - intros [= <-]. eauto.
  - simpl in Hc. destruct (Session_create params); rewrite Hc; simpl.
    + intros [= <-]. eauto.
    + discriminate.
Qed.

(** A processor failure is answered with a 400 that carries [str(e)]. *)
Lemma processor_failure_is_400 env w req line_items e :
  STRIPE_SECRET env <> "" ->
  stripe_loop w (CheckoutRequest.items req) [] = Return line_items ->
  Session_create
    (Session.Build "payment" line_items
       (frontend_url env +:+ "/checkout/success")
       (frontend_url env +:+ "/checkout/cancel")
       (CheckoutRequest.customer_email req)) = Raise e ->
  (checkout env w req).1 = Raise (HTTPException 400 (str_exn e)).
Proof.
  intros Henv Hloop Hs. apply str_is_empty_false in Henv.
  unfold checkout. rewrite Henv, Hloop, Hs. reflexivity.
Qed.

(** In the simulated branch a missing product met after lines that went
    through is answered with the 404 the loop raises. *)
Lemma simulated_missing_product_is_404 env w req before olds it after :
  STRIPE_SECRET env = "" ->
  CheckoutRequest.items req = before ++ it :: after ->
  Forall2 (fun it oi => simulated_line w it = Return oi) before olds ->
  unresolvable w it ->
  checkout env w req = (Raise (HTTPException 404 "Product not found"), w).
Proof.
  intros Henv Hitems Hbefore Hun. unfold checkout. rewrite Henv, Hitems. simpl.
  clear Hitems.
  assert (forall items total,
    simulated_loop w (before ++ it :: after) items total
    = Raise (HTTPException 404 "Product not found")) as Hloop.
  { induction Hbefore as [|b o bs os Hb _ IH]; intros items total; simpl.
    - unfold simulated_line. rewrite (lookup_product_unresolvable w it Hun).
      reflexivity.
    - rewrite Hb. simpl. apply IH. }
  rewrite Hloop. reflexivity.
Qed.

(** The simulated branch goes through as soon as every line does, the store
    is there and the customer's address is accepted. *)
Lemma simulated_checkout_succeeds env w d req new mail :
  STRIPE_SECRET env = "" ->
  db w = Some d ->
  EmailStr (CheckoutRequest.customer_email req) = Return mail ->
  Forall2 (fun it oi => simulated_line w it = Return oi) (CheckoutRequest.items req) new ->
  let o := Order.Build mail new
             (fold_left (fun t oi => (t + OrderItem.subtotal oi)%float) new 0%float)
             "inr" "pending" None in
  checkout env w req
  = (Return (simulated_body (inserted_id d o)),
     {| db := Some (with_order d (inserted_id d o) o);
        stripe_sessions := stripe_sessions w |}).
Proof.
  intros Henv Hd Hmail Hlines.
  pose proof (simulated_loop_complete w _ _ Hlines [] 0%float) as Hloop.
  unfold checkout, create_document. rewrite Henv. simpl.
  rewrite Hloop. simpl. unfold Order.init. rewrite Hmail. simpl. rewrite Hd.
  reflexivity.
Qed.

Lemma fold_subtotals (new : list OrderItem.t) : forall total,
  Forall (fun oi => OrderItem.subtotal oi
                    = (OrderItem.unit_price oi
                       * float_of_Z (OrderItem.quantity oi))%float) new ->
  fold_left (fun t oi => (t + OrderItem.subtotal oi)%float) new total
  = fold_left (fun acc l => (acc + fst l * float_of_Z (snd l))%float)
      (map (fun oi => (OrderItem.unit_price oi, OrderItem.quantity oi)) new) total.
Proof.
  induction new as [|oi new IH]; intros total Hall; [reflexivity |].
  inversion Hall as [|? ? Hoi Hnew]; subst. simpl. rewrite Hoi. apply IH, Hnew.
Qed.
End Handler.

Section Aborts.
Context {L : Libraries} {C : Collaborators}.

Lemma simulated_unresolvable_raises w its :
  Exists (unresolvable w) its ->
  forall items total, exists e, simulated_loop w its items total = Raise e.
Proof.
  intros Hex. apply simulated_loop_Raise.
  apply (Exists_impl _ _ _ Hex). intros it Hun.
  exists (HTTPException 404 "Product not found").
  unfold simulated_line. rewrite (lookup_product_unresolvable w it Hun).
  reflexivity.
Qed.

Lemma stripe_unresolvable_raises w its :
  Exists (unresolvable w) its ->
  forall line_items, exists e, stripe_loop w its line_items = Raise e.
Proof.
  intros Hex. apply stripe_loop_Raise.
  apply (Exists_impl _ _ _ Hex). intros it Hun.
  exists (HTTPException 404 "Product not found").
  unfold stripe_line. rewrite (lookup_product_unresolvable w it Hun).
  reflexivity.
Qed.

Lemma checkout_unresolvable env w req :
  Exists (unresolvable w) (CheckoutRequest.items req) ->
  exists e, checkout env w req = (Raise e, w).
Proof.
  intros Hex. unfold checkout. destruct (str_is_empty (STRIPE_SECRET env)).
  - destruct (simulated_unresolvable_raises w _ Hex [] 0%float) as (e & ->).
    simpl. eauto.
  - destruct (stripe_unresolvable_raises w _ Hex []) as (e & ->). eauto.
Qed.

(** With a processor configured, a missing product is answered with a 400:
    the 404 raised in the loop is caught by the handler's own [except]. *)
Lemma stripe_missing_product_is_400 env w req :
  STRIPE_SECRET env <> "" ->
  Exists (unresolvable w) (CheckoutRequest.items req) ->
  status_code_of (checkout env w req).1 = 400.
Proof.
  intros Henv Hex.
  destruct (checkout_unresolvable env w req Hex) as (e & Hc).
  destruct (stripe_checkout_failure_is_400 env w req e Henv) as (detail & ->).
  - rewrite Hc. reflexivity.
  - rewrite Hc. reflexivity.
Qed.
End Aborts.

(** ** The checkout flow *)

Section Claims.
Context {L : Libraries} {C : Collaborators}.

(** Every order a simulated checkout stores is built from the schema
    defaults: currency ["inr"], status ["pending"], no payment intent. *)
Lemma simulated_order_uses_defaults env w req body w' :
  STRIPE_SECRET env = "" ->
  checkout env w req = (Return body, w') ->
  exists d order_id o,
    db w = Some d /\ db w' = Some (with_order d order_id o) /\
    body = simulated_body order_id /\
    Order.currency o = "inr" /\ Order.status o = "pending" /\
    Order.payment_intent_id o = None.
Proof.
  intros Henv Hc.
  destruct (simulated_checkout_Return env w req body w' Henv Hc)
    as (d & new & total & email & order_id & Hd & _ & _ & _ & Hbody & ->).
  eexists d, order_id, _. simpl. auto 10.
Qed.

(** C2: when a simulated checkout goes through, every line of the stored
    order is the cart line at the same position priced from the catalog
    document found for it (its subtotal is unit price times quantity), and the
    order total is the sum of unit price times quantity over the lines, taken
    in input order from zero. *)
Theorem order_total_is_sum_of_catalog_priced_lines env w req body w' :
  STRIPE_SECRET env = "" ->
  checkout env w req = (Return body, w') ->
  exists d order_id o,
    db w = Some d /\
    db w' = Some (with_order d order_id o) /\
    Forall2 (priced_from_catalog d) (CheckoutRequest.items req) (Order.items o) /\
    Order.total o
    = sum_of_lines
        (map (fun oi => (OrderItem.unit_price oi, OrderItem.quantity oi))
           (Order.items o)).
Proof.
  intros Henv Hc.
  destruct (simulated_checkout_Return env w req body w' Henv Hc)
    as (d & new & total & email & order_id & Hd & Hloop & _ & _ & _ & ->).
  apply simulated_loop_Return in Hloop as (new' & Hlines & Hnew & Htotal).
  simpl in Hnew. subst new'.
  eexists d, order_id, _. split; [exact Hd |]. split; [reflexivity |]. simpl.
  assert (Forall2 (priced_from_catalog d) (CheckoutRequest.items req) new) as Hpriced.
  { apply (Forall2_impl _ _ _ _ Hlines). intros it oi.
    apply simulated_line_priced, Hd. }
  split; [exact Hpriced |].
  rewrite Htotal. unfold sum_of_lines. apply fold_subtotals.
  clear -Hpriced. induction Hpriced as [|it oi its ois Hp _ IH]; constructor; auto.
  destruct Hp as (v & oid & f & _ & _ & _ & _ & _ & Hs). exact Hs.
Qed.

(** C3: if the catalog has no document for the reference of some cart line,
    wherever the line stands in the cart, the handler raises and leaves the
    world as it found it, in either mode: no order is stored and no session is
    requested from the processor. *)
Theorem unresolvable_reference_aborts_checkout env w req :
  Exists (unresolvable w) (CheckoutRequest.items req) ->
  exists e,
    (checkout env w req).1 = Raise e /\
    db (checkout env w req).2 = db w /\
    stripe_sessions (checkout env w req).2 = stripe_sessions w.
Proof.
  intros Hex. destruct (checkout_unresolvable env w req Hex) as (e & ->).
  exists e. auto.
Qed.

(** C4: two requests for the same customer whose cart lines agree, position by
    position, on the product reference and on the quantity give the same
    result and leave the same world, whatever other fields (a price, say) the
    lines carry. *)
Theorem checkout_ignores_prices_in_request env w req1 req2 :
  CheckoutRequest.customer_email req1 = CheckoutRequest.customer_email req2 ->
  Forall2 same_reference (CheckoutRequest.items req1) (CheckoutRequest.items req2) ->
  checkout env w req1 = checkout env w req2.
Proof.
  intros Hmail Hitems. unfold checkout. rewrite Hmail.
  rewrite (simulated_loop_ext w (CheckoutRequest.items req1) (CheckoutRequest.items req2)).
  - rewrite (stripe_loop_ext w (CheckoutRequest.items req1) (CheckoutRequest.items req2));
      [reflexivity |].
    apply (Forall2_impl _ _ _ _ Hitems). intros a b Hab.
    apply stripe_line_ext; [apply Hab | apply same_reference_get, Hab].
  - apply (Forall2_impl _ _ _ _ Hitems). intros a b Hab.
    apply simulated_line_ext; [apply Hab | apply same_reference_get, Hab].
Qed.

(** C7: with a processor configured the handler never changes the document
    store, and when it returns, its body is the [url] the processor answered
    to the one session request it has just sent. *)
Theorem stripe_checkout_persists_no_order env w req :
  STRIPE_SECRET env <> "" ->
  db (checkout env w req).2 = db w /\
  forall body,
    (checkout env w req).1 = Return body ->
    exists params url,
      stripe_sessions (checkout env w req).2 = stripe_sessions w ++ [params] /\
      Session_create params = Return url /\
      body = PyDict [("url", url)].
Proof.
  intros Henv.
  destruct (stripe_checkout_cases env w req Henv)
    as [(e & _ & ->)|(lis & params & _ & _ & Hc)]; simpl.
  - split; [reflexivity | discriminate].
  - simpl in Hc. destruct (Session_create params) as [e|url] eqn:Hs; rewrite Hc; simpl.
    + split; [reflexivity | discriminate].
    + split; [reflexivity |]. intros body [= <-]. exists params, url. auto.
Qed.


(** C9: the sign of a quantity is never checked. For a cart line whose
    quantity is an integer [q <= 0] and whose product resolves to a document
    whose price [float()] accepts and whose title, if it has one, is a string,
    the simulated loop builds an OrderItem with quantity [q] and subtotal
    [unit_price * q], unless [q] is beyond the range of a double, where
    [unit_price * q] raises [OverflowError]. Within that range, when the other
    lines of the cart go through and the customer's address is accepted, the
    simulated checkout succeeds and the stored order holds that OrderItem at
    the position of the line. *)
Theorem nonpositive_quantity_is_accepted
    env w d email before olds it after news prod t p q mail :
  STRIPE_SECRET env = "" ->
  db w = Some d ->
  EmailStr email = Return mail ->
  Forall2 (fun it oi => simulated_line w it = Return oi) before olds ->
  Forall2 (fun it oi => simulated_line w it = Return oi) after news ->
  lookup_product w it = Return prod ->
  py_float (get (fields prod) "price" (PyInt 0)) = Return p ->
  get (fields prod) "title" (PyStr "") = PyStr t ->
  it !! "quantity" = Some (PyInt q) ->
  q <= 0 ->
  simulated_line w it
  = (if is_infinity (float_of_Z q) then Raise OverflowError
     else Return (OrderItem.Build (_id prod) t p q (p * float_of_Z q)%float))
  /\
  (is_infinity (float_of_Z q) = false ->
   exists order_id o,
     checkout env w (CheckoutRequest.Build (before ++ it :: after) email)
     = (Return (simulated_body order_id),
        {| db := Some (with_order d order_id o);
           stripe_sessions := stripe_sessions w |}) /\
     Order.items o
     = olds ++ OrderItem.Build (_id prod) t p q (p * float_of_Z q)%float :: news).
Proof.
  intros Henv Hd Hmail Hbefore Hafter Hprod Hp Ht Hq _.
  assert (simulated_line w it
          = (if is_infinity (float_of_Z q) then Raise OverflowError
             else Return (OrderItem.Build (_id prod) t p q (p * float_of_Z q)%float)))
    as Hit.
  { unfold simulated_line, float_mul_int, int_to_float.
    rewrite Hprod. simpl. unfold get at 1. rewrite Hq. simpl. rewrite Hp. simpl.
    destruct (is_infinity (float_of_Z q)); simpl; [reflexivity |].
    rewrite Ht. reflexivity. }
  split; [exact Hit |]. intros Hfin. rewrite Hfin in Hit.
  assert (Forall2 (fun it oi => simulated_line w it = Return oi)
            (before ++ it :: after)
            (olds ++ OrderItem.Build (_id prod) t p q (p * float_of_Z q)%float :: news))
    as Hall.
  { apply Forall2_app; [exact Hbefore |]. constructor; [exact Hit | exact Hafter]. }
  eexists _, _. split.
  - apply (simulated_checkout_succeeds env w d
             (CheckoutRequest.Build (before ++ it :: after) email) _ mail
             Henv Hd Hmail Hall).
  - reflexivity.
Qed.

(** C10: whatever a simulated checkout adds to the ["order"] collection has
    currency ["inr"], whatever the currency of the products it resolved; the
    rest of the store is as it was. *)
Theorem persisted_order_currency_is_inr env w req d' :
  STRIPE_SECRET env = "" ->
  db (checkout env w req).2 = Some d' ->
  exists d new,
    db w = Some d /\ product d' = product d /\
    order d' = order d ++ new /\
    Forall (fun o => Order.currency o.2 = "inr") new.
Proof.
  intros Henv Hd'.
  destruct (checkout env w req) as [[e|body] w'] eqn:Hc; simpl in Hd'.
  - apply simulated_checkout_Raise in Hc as ->; [| exact Henv].
    exists d', []. rewrite app_nil_r. auto.
  - destruct (simulated_order_uses_defaults env w req body w' Henv Hc)
      as (d & order_id & o & Hd & Hw' & _ & Hcur & _).
    rewrite Hw' in Hd'. injection Hd' as <-.
    exists d, [(order_id, o)]. simpl. auto.
Qed.
End Claims.

(** ** The handler on the sample catalog *)

Section Samples.
Import Double.

(** C1: the simulated checkout of two chairs at 100.0 answers with the
    success body, the new order's identifier and the simulated-payment flag,
    and stores one order of total 200.0 with one line of subtotal 200.0; the
    status of the stored order is ["pending"], the default of the schema,
    and not ["paid"]. *)
Example simulated_checkout_stores_pending_order :
  checkout (C := processor_up) simulated world (cart [line chair_id 2])
  = (Return (PyDict [("success", PyBool true); ("order_id", PyStr "order-0");
                     ("payment_simulated", PyBool true)]),
     {| db := Some
          {| product := product catalog;
             order :=
               [("order-0",
                 Order.Build "asha@example.com"
                   [OrderItem.Build chair_id "Oak chair" 100 2 200]
                   200 "inr" "pending" None)] |};
        stripe_sessions := [] |}).
Proof. vm_compute. reflexivity. Qed.

(** The line the specification gives as an example: a price of 100.0 and a
    quantity of 2 are sent as 10000 minor units and quantity 2. *)
Example stripe_line_of_two_chairs :
  stripe_line world (line chair_id 2)
  = Return (LineItem.Build
              (PriceData.Build (PyStr "inr") (ProductData.Build (PyStr "Oak chair"))
                 10000)
              2).
Proof. vm_compute. reflexivity. Qed.

(** C5: for a tray at 19.99 the Stripe branch sends the tray's currency and
    title and the line's quantity, but 1998 minor units: [19.99 * 100] is
    the double just below 1999 and [int] cuts it, where rounding gives
    1999. *)
Example stripe_unit_amount_is_cut_not_rounded :
  stripe_line world (line tray_id 1)
  = Return (LineItem.Build
              (PriceData.Build (PyStr "usd") (ProductData.Build (PyStr "Walnut tray"))
                 1998)
              1)
  /\ round_minor_units tray_price = Return 1999.
Proof. split; vm_compute; reflexivity. Qed.

(** C6: a cart that names a product the catalog does not have is answered
    with 404 when no processor is configured, and with 400 when one is: the
    404 raised in the loop is caught by the handler's own [except Exception]
    and raised again as a 400. A processor failure is a 400 with the
    processor's text. *)
Example missing_product_is_400_with_processor :
  (checkout (C := processor_up) simulated world (cart [line missing_id 1])).1
  = Raise (HTTPException 404 "Product not found")
  /\ (checkout (C := processor_up) configured world (cart [line missing_id 1])).1
     = Raise (HTTPException 400 (str_exn (HTTPException 404 "Product not found")))
  /\ status_code_of
       (checkout (C := processor_up) configured world (cart [line missing_id 1])).1
     = 400
  /\ (checkout (C := processor_down) configured world (cart [line chair_id 1])).1
     = Raise (HTTPException 400 "Invalid API Key provided").
Proof. repeat split; vm_compute; reflexivity. Qed.

Lemma order_total_is_sum_of_catalog_priced_lines_witness :
  STRIPE_SECRET simulated = "" /\
  exists d order_id o,
    db world = Some d /\
    db (checkout (C := processor_up) simulated world
          (cart [line chair_id 2; line tray_id 3])).2
    = Some (with_order d order_id o) /\
    Forall2 (priced_from_catalog d) [line chair_id 2; line tray_id 3] (Order.items o) /\
    Order.total o
    = sum_of_lines
        (map (fun oi => (OrderItem.unit_price oi, OrderItem.quantity oi))
           (Order.items o)).
Proof.
  split; [reflexivity |].
  apply (order_total_is_sum_of_catalog_priced_lines (C := processor_up)
           simulated world (cart [line chair_id 2; line tray_id 3])
           (simulated_body "order-0") _ eq_refl).
  vm_compute. reflexivity.
Defined.

Lemma unresolvable_reference_aborts_checkout_witness :
  Exists (unresolvable world) [line chair_id 1; line missing_id 1] /\
  exists e,
    (checkout (C := processor_up) configured world
       (cart [line chair_id 1; line missing_id 1])).1 = Raise e /\
    db (checkout (C := processor_up) configured world
          (cart [line chair_id 1; line missing_id 1])).2 = db world /\
    stripe_sessions (checkout (C := processor_up) configured world
                       (cart [line chair_id 1; line missing_id 1])).2
    = stripe_sessions world.
Proof.
  assert (Exists (unresolvable world) [line chair_id 1; line missing_id 1]) as Hex.
  { apply Exists_cons_tl, Exists_cons_hd.
    exists catalog, (PyStr missing_id), missing_id.
    repeat split; vm_compute; reflexivity. }
  split; [exact Hex |].
  apply (unresolvable_reference_aborts_checkout (C := processor_up) configured world
           (cart [line chair_id 1; line missing_id 1]) Hex).
Defined.

Lemma checkout_ignores_prices_in_request_witness :
  CheckoutRequest.customer_email (cart [line chair_id 2])
  = CheckoutRequest.customer_email (cart [<["price" := PyInt 1]> (line chair_id 2)]) /\
  Forall2 same_reference [line chair_id 2] [<["price" := PyInt 1]> (line chair_id 2)] /\
  checkout (C := processor_up) simulated world (cart [line chair_id 2])
  = checkout (C := processor_up) simulated world
      (cart [<["price" := PyInt 1]> (line chair_id 2)]).
Proof.
  assert (Forall2 same_reference [line chair_id 2]
            [<["price" := PyInt 1]> (line chair_id 2)]) as Hsame.
  { repeat constructor; vm_compute; reflexivity. }
  assert (CheckoutRequest.customer_email (cart [line chair_id 2])
          = CheckoutRequest.customer_email
              (cart [<["price" := PyInt 1]> (line chair_id 2)])) as Hmail
    by (simpl; reflexivity).
  split; [exact Hmail |]. split; [exact Hsame |].
  apply (checkout_ignores_prices_in_request (C := processor_up) simulated world
           (cart [line chair_id 2]) (cart [<["price" := PyInt 1]> (line chair_id 2)])
           Hmail Hsame).
Defined.

Lemma stripe_checkout_persists_no_order_witness :
  STRIPE_SECRET configured <> "" /\
  db (checkout (C := processor_up) configured world (cart [line chair_id 2])).2
  = db world /\
  forall body,
    (checkout (C := processor_up) configured world (cart [line chair_id 2])).1
    = Return body ->
    exists params url,
      stripe_sessions
        (checkout (C := processor_up) configured world (cart [line chair_id 2])).2
      = stripe_sessions world ++ [params] /\
      Session_create (Collaborators := processor_up) params = Return url /\
      body = PyDict [("url", url)].
Proof.
  assert (STRIPE_SECRET configured <> "") as Henv by (simpl; discriminate).
  split; [exact Henv |].
  apply (stripe_checkout_persists_no_order (C := processor_up) configured world
           (cart [line chair_id 2]) Henv).
Defined.

(** A cart line without a quantity, after two trays: the order stored and the
    session requested both hold one chair. *)
Example checkout_of_line_without_quantity :
  checkout (C := processor_up) simulated world
    (cart [line tray_id 2; {[ "product_id" := PyStr chair_id ]}])
  = (Return (simulated_body "order-0"),
     {| db := Some
          (with_order catalog "order-0"
             (Order.Build "asha@example.com"
                [OrderItem.Build tray_id "Walnut tray" tray_price 2
                   (tray_price * float_of_Z 2)%float;
                 OrderItem.Build chair_id "Oak chair" 100 1 100]
                (0 + tray_price * float_of_Z 2 + 100)%float
                "inr" "pending" None));
        stripe_sessions := [] |})
  /\ stripe_sessions
       (checkout (C := processor_up) configured world
          (cart [line tray_id 2; {[ "product_id" := PyStr chair_id ]}])).2
     = [Session.Build "payment"
          [LineItem.Build
             (PriceData.Build (PyStr "usd") (ProductData.Build (PyStr "Walnut tray"))
                1998) 2;
           LineItem.Build
             (PriceData.Build (PyStr "inr") (ProductData.Build (PyStr "Oak chair"))
                10000) 1]
          "http://localhost:3000/checkout/success"
          "http://localhost:3000/checkout/cancel"
          "asha@example.com"].
Proof. split; vm_compute; reflexivity. Qed.


(** A quantity beyond the range of a double: the product resolves, the
    quantity is negative, and the simulated checkout does not succeed: the
    product [100.0 * qty] raises [OverflowError] and nothing is stored. *)
Lemma nonpositive_quantity_beyond_float_range_fails :
  - 10 ^ 400 <= 0 /\
  lookup_product world (line chair_id (- 10 ^ 400))
  = Return {| _id := chair_id; fields := chair |} /\
  EmailStr "asha@example.com" = Return "asha@example.com" /\
  checkout (C := processor_up) simulated world (cart [line chair_id (- 10 ^ 400)])
  = (Raise OverflowError, world) /\
  ~ (exists body w',
       checkout (C := processor_up) simulated world (cart [line chair_id (- 10 ^ 400)])
       = (Return body, w')).
Proof.
  assert (checkout (C := processor_up) simulated world
            (cart [line chair_id (- 10 ^ 400)])
          = (Raise OverflowError, world)) as Hc
    by (vm_compute; reflexivity).
  split; [vm_compute; discriminate |].
  split; [vm_compute; reflexivity |].
  split; [vm_compute; reflexivity |].
  split; [exact Hc |].
  intros (body & w' & Hr). rewrite Hc in Hr. discriminate Hr.
Qed.

Lemma nonpositive_quantity_is_accepted_witness :
  STRIPE_SECRET simulated = "" /\
  db Backoffice.showroom = Some Backoffice.showroom_db /\
  EmailStr "asha@example.com" = Return "asha@example.com" /\
  Forall2 (fun it oi => simulated_line Backoffice.showroom it = Return oi)
    [line tray_id 1]
    [OrderItem.Build tray_id "Walnut tray" tray_price 1 tray_price] /\
  lookup_product Backoffice.showroom (line Backoffice.stool_id (-3))
  = Return {| _id := Backoffice.stool_id; fields := Backoffice.stool |} /\
  py_float (get Backoffice.stool "price" (PyInt 0)) = Return 40%float /\
  get Backoffice.stool "title" (PyStr "") = PyStr "" /\
  line Backoffice.stool_id (-3) !! "quantity" = Some (PyInt (-3)) /\
  -3 <= 0 /\
  is_infinity (float_of_Z (-3)) = false /\
  simulated_line Backoffice.showroom (line Backoffice.stool_id (-3))
  = Return (OrderItem.Build Backoffice.stool_id "" 40 (-3) (40 * float_of_Z (-3))%float)
  /\
  exists order_id o,
    checkout (C := processor_up) simulated Backoffice.showroom
      (CheckoutRequest.Build ([line tray_id 1] ++ line Backoffice.stool_id (-3) :: [])
         "asha@example.com")
    = (Return (simulated_body order_id),
       {| db := Some (with_order Backoffice.showroom_db order_id o);
          stripe_sessions := stripe_sessions Backoffice.showroom |}) /\
    Order.items o
    = [OrderItem.Build tray_id "Walnut tray" tray_price 1 tray_price]
      ++ OrderItem.Build Backoffice.stool_id "" 40 (-3) (40 * float_of_Z (-3))%float
      :: [].
Proof.
  assert (Forall2 (fun it oi => simulated_line Backoffice.showroom it = Return oi)
            [line tray_id 1]
            [OrderItem.Build tray_id "Walnut tray" tray_price 1 tray_price]) as Hbefore.
  { constructor; [vm_compute; reflexivity | constructor]. }
  assert (Forall2 (fun it oi => simulated_line Backoffice.showroom it = Return oi) [] [])
    as Hafter by constructor.
  assert (lookup_product Backoffice.showroom (line Backoffice.stool_id (-3))
          = Return {| _id := Backoffice.stool_id; fields := Backoffice.stool |}) as Hprod
    by (vm_compute; reflexivity).
  assert (py_float (get Backoffice.stool "price" (PyInt 0)) = Return 40%float) as Hp
    by (vm_compute; reflexivity).
  assert (get Backoffice.stool "title" (PyStr "") = PyStr "") as Ht
    by (vm_compute; reflexivity).
  assert (line Backoffice.stool_id (-3) !! "quantity" = Some (PyInt (-3))) as Hq
    by (vm_compute; reflexivity).
  assert (is_infinity (float_of_Z (-3)) = false) as Hfin by (vm_compute; reflexivity).
  assert (-3 <= 0) as Hle by lia.
  assert (EmailStr "asha@example.com" = Return "asha@example.com") as Hmail
    by (vm_compute; reflexivity).
  assert (STRIPE_SECRET simulated = "") as Henv by reflexivity.
  assert (db Backoffice.showroom = Some Backoffice.showroom_db) as Hd by reflexivity.
  destruct (nonpositive_quantity_is_accepted (C := processor_up)
              simulated Backoffice.showroom Backoffice.showroom_db "asha@example.com"
              [line tray_id 1]
              [OrderItem.Build tray_id "Walnut tray" tray_price 1 tray_price]
              (line Backoffice.stool_id (-3)) [] []
              {| _id := Backoffice.stool_id; fields := Backoffice.stool |}
              "" 40%float (-3)
              "asha@example.com" Henv Hd Hmail Hbefore Hafter
              Hprod Hp Ht Hq Hle) as [Hline Hcheckout].
  rewrite Hfin in Hline.
  repeat (split; [assumption |]).
  exact (Hcheckout Hfin).
Defined.

Lemma persisted_order_currency_is_inr_witness :
  STRIPE_SECRET simulated = "" /\
  exists d new,
    db world = Some d /\
    product (with_order catalog "order-0"
               (Order.Build "asha@example.com"
                  [OrderItem.Build tray_id "Walnut tray" tray_price 1 tray_price]
                  tray_price "inr" "pending" None))
    = product d /\
    order (with_order catalog "order-0"
             (Order.Build "asha@example.com"
                [OrderItem.Build tray_id "Walnut tray" tray_price 1 tray_price]
                tray_price "inr" "pending" None))
    = order d ++ new /\
    Forall (fun o => Order.currency o.2 = "inr") new.
Proof.
  split; [reflexivity |].
  apply (persisted_order_currency_is_inr (C := processor_up) simulated world
           (cart [line tray_id 1])).
  - reflexivity.
  - vm_compute. reflexivity.
Defined.
End Samples.

(** * Further properties of the handlers *)

(** ** Where a loop stops *)

Section FirstFailure.
Context {L : Libraries} {C : Collaborators}.

Lemma simulated_loop_first_failure w before olds it after e :
  Forall2 (goes_through w) before olds ->
  simulated_line w it = Raise e ->
  forall items total,
    simulated_loop w (before ++ it :: after) items total = Raise e.
Proof.
  intros Hbefore Hit.
  induction Hbefore as [|b o bs os Hb _ IH]; intros items total; simpl.
  - rewrite Hit. reflexivity.
  - unfold goes_through in Hb. rewrite Hb. simpl. apply IH.
Qed.

Lemma stripe_loop_first_failure w before sent it after e :
  Forall2 (is_sent w) before sent ->
  stripe_line w it = Raise e ->
  forall line_items,
    stripe_loop w (before ++ it :: after) line_items = Raise e.
Proof.
  intros Hbefore Hit.
  induction Hbefore as [|b o bs os Hb _ IH]; intros lis; simpl.
  - rewrite Hit. reflexivity.
  - unfold is_sent in Hb. rewrite Hb. simpl. apply IH.
Qed.


Lemma checkout_first_failure env w before olds sent it after email e :
  Forall2 (goes_through w) before olds ->
  Forall2 (is_sent w) before sent ->
  simulated_line w it = Raise e ->
  stripe_line w it = Raise e ->
  checkout env w (CheckoutRequest.Build (before ++ it :: after) email)
  = (Raise (if str_is_empty (STRIPE_SECRET env) then e
            else HTTPException 400 (str_exn e)), w).
Proof.
  intros Hsim Hstripe Hit Hli. unfold checkout. simpl.
  destruct (str_is_empty (STRIPE_SECRET env)).
  - rewrite (simulated_loop_first_failure w before olds it after e Hsim Hit).
    reflexivity.
  - rewrite (stripe_loop_first_failure w before sent it after e Hstripe Hli).
    reflexivity.
Qed.

(** X1: with no processor configured, the exception of the first cart line that
    fails, after lines that went through, is what the handler raises, whatever
    the lines after it are; nothing is stored. *)
Theorem simulated_first_failure_reaches_caller env w req before olds it after e :
  STRIPE_SECRET env = "" ->
  CheckoutRequest.items req = before ++ it :: after ->
  Forall2 (goes_through w) before olds ->
  simulated_line w it = Raise e ->
  checkout env w req = (Raise e, w).
Proof.
  intros Henv Hitems Hbefore Hit. unfold checkout. rewrite Henv, Hitems. simpl.
  rewrite (simulated_loop_first_failure w before olds it after e Hbefore Hit).
  reflexivity.
Qed.

(** X2: with a processor configured, the exception of the first cart line that
    fails is caught and answered as a 400 whose detail is [str(e)]; no session
    is requested and nothing is stored. *)
Theorem stripe_first_failure_becomes_400 env w req before sent it after e :
  STRIPE_SECRET env <> "" ->
  CheckoutRequest.items req = before ++ it :: after ->
  Forall2 (is_sent w) before sent ->
  stripe_line w it = Raise e ->
  checkout env w req = (Raise (HTTPException 400 (str_exn e)), w).
Proof.
  intros Henv Hitems Hbefore Hit. apply str_is_empty_false in Henv.
  unfold checkout. rewrite Henv, Hitems.
  rewrite (stripe_loop_first_failure w before sent it after e Hbefore Hit).
  reflexivity.
Qed.

(** X3: a cart line without a ["product_id"] key is not answered as a client
    error of its own: the [KeyError] escapes the simulated branch (a 500) and
    is turned into a 400 by the Stripe branch. *)
Theorem missing_product_id_is_KeyError env w d before olds sent it after email :
  db w = Some d ->
  it !! "product_id" = None ->
  Forall2 (goes_through w) before olds ->
  Forall2 (is_sent w) before sent ->
  checkout env w (CheckoutRequest.Build (before ++ it :: after) email)
  = (Raise (if str_is_empty (STRIPE_SECRET env) then KeyError "product_id"
            else HTTPException 400 (str_exn (KeyError "product_id"))), w)
  /\ status_code_of (checkout env w (CheckoutRequest.Build (before ++ it :: after) email)).1
     = (if str_is_empty (STRIPE_SECRET env) then 500 else 400).
Proof.
  intros Hd Hpid Hsim Hstripe.
  assert (lookup_product w it = Raise (KeyError "product_id")) as Hl.
  { unfold lookup_product, collection_product, subscript. rewrite Hd, Hpid.
    reflexivity. }
  rewrite (checkout_first_failure env w before olds sent it after email
             (KeyError "product_id") Hsim Hstripe).
  - split; [reflexivity |]. destruct (str_is_empty (STRIPE_SECRET env)); reflexivity.
  - unfold simulated_line. rewrite Hl. reflexivity.
  - unfold stripe_line. rewrite Hl. reflexivity.
Qed.

(** X4: a ["quantity"] that is present but [null] is not defaulted to 1: for a
    line whose product resolves, [int(None)] is a [TypeError], a 500 from the
    simulated branch and a 400 from the Stripe branch. *)
Theorem null_quantity_is_TypeError env w prod before olds sent it after email :
  lookup_product w it = Return prod ->
  it !! "quantity" = Some PyNone ->
  Forall2 (goes_through w) before olds ->
  Forall2 (is_sent w) before sent ->
  checkout env w (CheckoutRequest.Build (before ++ it :: after) email)
  = (Raise (if str_is_empty (STRIPE_SECRET env) then TypeError
            else HTTPException 400 (str_exn TypeError)), w)
  /\ status_code_of (checkout env w (CheckoutRequest.Build (before ++ it :: after) email)).1
     = (if str_is_empty (STRIPE_SECRET env) then 500 else 400).
Proof.
  intros Hprod Hq Hsim Hstripe.
  rewrite (checkout_first_failure env w before olds sent it after email
             TypeError Hsim Hstripe).
  - split; [reflexivity |]. destruct (str_is_empty (STRIPE_SECRET env)); reflexivity.
  - unfold simulated_line, get. rewrite Hprod, Hq. reflexivity.
  - unfold stripe_line, get. rewrite Hprod, Hq. reflexivity.
Qed.
End FirstFailure.

(** ** What a simulated checkout stores *)

Section StoredOrder.
Context {L : Libraries} {C : Collaborators}.

(** X5: an empty cart is not rejected: with no processor configured, a store
    and an accepted address, the handler stores an order without lines whose
    total is zero and answers with its identifier. *)
Theorem empty_cart_stores_empty_order env w d email mail :
  STRIPE_SECRET env = "" ->
  db w = Some d ->
  EmailStr email = Return mail ->
  let o := Order.Build mail [] 0%float "inr" "pending" None in
  checkout env w (CheckoutRequest.Build [] email)
  = (Return (simulated_body (inserted_id d o)),
     {| db := Some (with_order d (inserted_id d o) o);
        stripe_sessions := stripe_sessions w |}).
Proof.
  intros Henv Hd Hmail.
  apply (simulated_checkout_succeeds env w d (CheckoutRequest.Build [] email) [] mail
           Henv Hd Hmail).
  constructor.
Qed.

(** X6: every line of a stored order is a snapshot of the catalog: its
    [product_id] is the identifier the cart line's reference parses to, the
    catalog has a document under it, and its title is that document's title,
    or the empty string when the document has none. Lines are in cart
    order, one per cart line. *)
Theorem order_lines_are_catalog_snapshots env w req body w' :
  STRIPE_SECRET env = "" ->
  checkout env w req = (Return body, w') ->
  exists d order_id o,
    db w = Some d /\
    db w' = Some (with_order d order_id o) /\
    Forall2
      (fun it oi =>
         exists v f,
           it !! "product_id" = Some v /\
           ObjectId v = Return (OrderItem.product_id oi) /\
           product d !! OrderItem.product_id oi = Some f /\
           get f "title" (PyStr "") = PyStr (OrderItem.title oi))
      (CheckoutRequest.items req) (Order.items o).
Proof.
  intros Henv Hc.
  destruct (simulated_checkout_Return env w req body w' Henv Hc)
    as (d & new & total & email & order_id & Hd & Hloop & _ & _ & _ & ->).
  apply simulated_loop_Return in Hloop as (new' & Hlines & Hnew & _).
  simpl in Hnew. subst new'.
  eexists d, order_id, _. split; [exact Hd |]. split; [reflexivity |]. simpl.
  apply (Forall2_impl _ _ _ _ Hlines). intros it oi Hit.
  apply simulated_line_Return in Hit as (prod & Hp & _ & _ & _ & Hid & Htitle).
  apply lookup_product_Return in Hp as (d' & v & Hd' & Hv & Ho & Hf).
  assert (d' = d) as -> by congruence.
  exists v, (fields prod). rewrite Hid. auto.
Qed.

(** X7: an order is stored only under an address [EmailStr] accepts. When it
    rejects the customer's address the handler raises that error and stores
    nothing, even though every cart line went through; and the address of a
    stored order is the validated one. *)
Theorem order_needs_accepted_address env w req :
  STRIPE_SECRET env = "" ->
  (forall e olds,
     EmailStr (CheckoutRequest.customer_email req) = Raise e ->
     Forall2 (goes_through w) (CheckoutRequest.items req) olds ->
     checkout env w req = (Raise e, w))
  /\
  (forall body w',
     checkout env w req = (Return body, w') ->
     exists d order_id o,
       db w' = Some (with_order d order_id o) /\
       EmailStr (CheckoutRequest.customer_email req) = Return (Order.user_email o)).
Proof.
  intros Henv. split.
  - intros e olds Hmail Hlines.
    pose proof (simulated_loop_complete w _ _ Hlines [] 0%float) as Hloop.
    unfold checkout. rewrite Henv. simpl. rewrite Hloop. simpl.
    unfold Order.init. rewrite Hmail. reflexivity.
  - intros body w' Hc.
    destruct (simulated_checkout_Return env w req body w' Henv Hc)
      as (d & new & total & email & order_id & _ & _ & Hmail & _ & _ & ->).
    eexists d, order_id, _. split; [reflexivity | exact Hmail].
Qed.

(** X8: with no processor configured the handler never sends a session
    request, whether it succeeds or fails. *)
Theorem simulated_checkout_sends_no_session env w req :
  STRIPE_SECRET env = "" ->
  stripe_sessions (checkout env w req).2 = stripe_sessions w.
Proof.
  intros Henv. destruct (checkout env w req) as [[e|body] w'] eqn:Hc; simpl.
  - apply simulated_checkout_Raise in Hc as ->; [reflexivity | exact Henv].
  - destruct (simulated_checkout_Return env w req body w' Henv Hc)
      as (d & new & total & email & order_id & _ & _ & _ & _ & _ & ->).
    reflexivity.
Qed.
End StoredOrder.

(** ** What the Stripe branch sends *)

Section StripeBranch.
Context {L : Libraries} {C : Collaborators}.

Lemma stripe_checkout_sends env w req line_items :
  STRIPE_SECRET env <> "" ->
  stripe_loop w (CheckoutRequest.items req) [] = Return line_items ->
  checkout env w req
  = (match Session_create (session_request env req line_items) with
     | Raise e => Raise (HTTPException 400 (str_exn e))
     | Return url => Return (PyDict [("url", url)])
     end,
     {| db := db w;
        stripe_sessions := stripe_sessions w ++ [session_request env req line_items] |}).
Proof.
  intros Henv Hloop. apply str_is_empty_false in Henv.
  unfold checkout, session_request. rewrite Henv, Hloop.
  destruct (Session_create _); reflexivity.
Qed.


(** X10: an empty cart is not rejected by the Stripe branch either: a session
    without line items is requested from the processor. *)
Theorem empty_cart_requests_empty_session env w email :
  STRIPE_SECRET env <> "" ->
  stripe_sessions (checkout env w (CheckoutRequest.Build [] email)).2
  = stripe_sessions w
    ++ [session_request env (CheckoutRequest.Build [] email) []].
Proof.
  intros Henv.
  rewrite (stripe_checkout_sends env w (CheckoutRequest.Build [] email) [] Henv eq_refl).
  reflexivity.
Qed.

(** X11: with a processor configured the handler answers 200 or 400 and
    nothing else: whatever goes wrong (an unknown product, a malformed
    identifier, a missing key, no database, a processor error) is a 400. *)
Theorem stripe_checkout_status_is_200_or_400 env w req :
  STRIPE_SECRET env <> "" ->
  status_code_of (checkout env w req).1 = 200
  \/ status_code_of (checkout env w req).1 = 400.
Proof.
  intros Henv. destruct (checkout env w req).1 as [e|body] eqn:Hc.
  - right. destruct (stripe_checkout_failure_is_400 env w req e Henv Hc) as (detail & ->).
    reflexivity.
  - left. reflexivity.
Qed.

(** X12: the two branches read a cart line alike: when a line goes through
    both loops, the quantity sent to the processor is the quantity stored in
    the order line, and the amount sent is the stored unit price times one
    hundred, cut to an integer. *)
Theorem branches_read_same_price_and_quantity w it oi li :
  simulated_line w it = Return oi ->
  stripe_line w it = Return li ->
  LineItem.quantity li = OrderItem.quantity oi /\
  float_to_int (OrderItem.unit_price oi * 100)%float
  = Return (PriceData.unit_amount (LineItem.price_data li)).
Proof.
  intros Hsim Hstripe.
  apply simulated_line_Return in Hsim as (prod & Hp & Hq & Hprice & _).
  apply stripe_line_Return in Hstripe as (prod' & price & Hp' & Hprice' & Ha & _ & _ & Hq').
  assert (prod' = prod) as -> by congruence.
  split; congruence.
Qed.

(** X13: a catalog document without a price is sold at zero, and one without a
    title is stored with an empty title but sent to the processor as
    ["Item"]; a document without a currency is sent as ["inr"]. *)
Theorem missing_fields_take_defaults w it prod q :
  lookup_product w it = Return prod ->
  fields prod !! "price" = None ->
  fields prod !! "title" = None ->
  fields prod !! "currency" = None ->
  py_int (get it "quantity" (PyInt 1)) = Return q ->
  is_infinity (float_of_Z q) = false ->
  simulated_line w it
  = Return (OrderItem.Build (_id prod) "" 0 q (0 * float_of_Z q)%float)
  /\ stripe_line w it
     = Return (LineItem.Build
                 (PriceData.Build (PyStr "inr") (ProductData.Build (PyStr "Item")) 0)
                 q).
Proof.
  intros Hprod Hprice Htitle Hcur Hq Hfin.
  unfold simulated_line, stripe_line, float_mul_int, int_to_float.
  rewrite Hprod. simpl. rewrite Hq. simpl.
  unfold get. rewrite Hprice, Htitle, Hcur. simpl.
  rewrite Hfin. split; reflexivity.
Qed.
End StripeBranch.

(** ** Cutting and rounding *)

Lemma float_to_int_near_round f a :
  float_to_int f = Return a ->
  exists b, py_round f = Return b /\ Z.abs (b - a) <= 1 /\ Z.abs a <= Z.abs b.
Proof.
  unfold float_to_int, py_round.
  destruct (Prim2SF f) as [s|s| |s m e]; try discriminate.
  - intros [= <-]. exists 0. split; [reflexivity | lia].
  - destruct e as [|k|k].
    + intros [= <-]. eexists. split; [reflexivity | lia].
    + intros [= <-]. eexists. split; [reflexivity | lia].
    + intros [= <-]. rewrite Z.shiftl_div_pow2 by lia.
      change (- Z.neg k) with (Z.pos k).
      assert (0 <= Z.pos m / 2 ^ Z.pos k) by (apply Z.div_pos; lia).
      eexists. split; [reflexivity |].
      destruct (2 * (Z.pos m mod 2 ^ Z.pos k) ?= 2 ^ Z.pos k);
        [destruct (Z.even (Z.pos m / 2 ^ Z.pos k)) | |]; destruct s; lia.
Qed.

(** X14: the amount the Stripe branch sends is never more than one minor
    unit away from the rounded price, and never larger in magnitude: cutting
    instead of rounding can lose one minor unit and no more. *)
Theorem unit_amount_within_one_of_rounding {L : Libraries} w it li :
  stripe_line w it = Return li ->
  exists prod price rounded,
    lookup_product w it = Return prod /\
    py_float (get (fields prod) "price" (PyInt 0)) = Return price /\
    round_minor_units price = Return rounded /\
    Z.abs (rounded - PriceData.unit_amount (LineItem.price_data li)) <= 1 /\
    Z.abs (PriceData.unit_amount (LineItem.price_data li)) <= Z.abs rounded.
Proof.
  intros Hli.
  apply stripe_line_Return in Hli as (prod & price & Hp & Hprice & Ha & _).
  apply float_to_int_near_round in Ha as (b & Hb & Hnear & Hle).
  exists prod, price, b. auto.
Qed.

(** ** Login *)

(** X15: [login] hands out a token exactly when the address equals the
    configured admin address up to [lower()], the password equals the
    configured password character for character, and [EmailStr] accepts the
    address when the response model is built. The response then carries the
    constant token ["admin-token"], the role ["admin"] and the address as
    [EmailStr] returns it, that is, normalised. Any other address or password
    is answered with 401. *)
Theorem login_token_only_for_admin {L : Libraries} {T : Text} env req :
  (forall r,
     login env req = Return r <->
     str_lower (AuthRequest.email req) = str_lower (ADMIN_EMAIL env) /\
     AuthRequest.password req = ADMIN_PASSWORD env /\
     exists mail,
       EmailStr (AuthRequest.email req) = Return mail /\
       r = AuthResponse.Build "admin-token" "admin" mail)
  /\
  (str_lower (AuthRequest.email req) <> str_lower (ADMIN_EMAIL env)
   \/ AuthRequest.password req <> ADMIN_PASSWORD env ->
   login env req = Raise (HTTPException 401 "Invalid credentials")).
Proof.
  unfold login, AuthResponse.init.
  destruct (String.eqb (str_lower (AuthRequest.email req)) (str_lower (ADMIN_EMAIL env)))
    eqn:Hmail;
    [apply String.eqb_eq in Hmail | apply String.eqb_neq in Hmail];
    (destruct (String.eqb (AuthRequest.password req) (ADMIN_PASSWORD env)) eqn:Hpw;
     [apply String.eqb_eq in Hpw | apply String.eqb_neq in Hpw]); simpl.
  - split.
    + intros r. destruct (EmailStr (AuthRequest.email req)) as [e|mail]; simpl; split.
      * discriminate.
      * intros (_ & _ & mail & [=] & _).
      * intros [= <-]. eauto.
      * intros (_ & _ & mail' & [= <-] & ->). reflexivity.
    + intros [Hne|Hne]; contradiction.
  - split; [| reflexivity]. intros r. split; [discriminate |].
    intros (_ & Hpw' & _). contradiction.
  - split; [| reflexivity]. intros r. split; [discriminate |].
    intros (Hmail' & _). contradiction.
  - split; [| reflexivity]. intros r. split; [discriminate |].
    intros (Hmail' & _). contradiction.
Qed.

(** ** Product maintenance *)

Lemma update_data_lookup payload :
  update_data payload !! "title" = PyStr <$> ProductUpdate.title payload /\
  update_data payload !! "description" = PyStr <$> ProductUpdate.description payload /\
  update_data payload !! "price" = PyFloat <$> ProductUpdate.price payload /\
  update_data payload !! "currency" = PyStr <$> ProductUpdate.currency payload /\
  update_data payload !! "images"
  = (fun l => PyList (map PyStr l)) <$> ProductUpdate.images payload /\
  update_data payload !! "category" = PyStr <$> ProductUpdate.category payload /\
  update_data payload !! "stock" = PyInt <$> ProductUpdate.stock payload /\
  update_data payload !! "featured" = PyBool <$> ProductUpdate.featured payload.
Proof.
  destruct payload as [[t|] [de|] [p|] [c|] [i|] [ca|] [s|] [fe|]];
    repeat split; reflexivity.
Qed.

Lemma update_data_other payload k :
  k ∉ ["title"; "description"; "price"; "currency"; "images"; "category";
       "stock"; "featured"] ->
  update_data payload !! k = None.
Proof.
  intros Hk. unfold update_data. apply not_elem_of_list_to_map_1.
  intros Hin. apply Hk. clear Hk.
  apply list_elem_of_fmap in Hin as ([k' v] & -> & Hin).
  apply list_elem_of_In, filter_In in Hin as [Hin _].
  simpl in Hin.
  repeat (destruct Hin as [Hin|Hin]; [injection Hin as <- _; set_solver |]).
  destruct Hin.
Qed.

Lemma union_absorbs (data f : pydict) : data ∪ (data ∪ f) = data ∪ f.
Proof. rewrite (assoc_L (∪)), (idemp_L (∪)). reflexivity. Qed.

Section Maintenance.
Context {L : Libraries} {M : Mongo} {C : Collaborators}.

(** X16: a field the payload leaves unset (or sets to [null]) is not part of
    the [$set] document, so an update can change a field but never clear one;
    a field it sets is written with the value given, whatever it is (a
    negative price or stock included), and no other key is ever written. *)
Theorem update_data_omits_unset_fields payload :
  (update_data payload !! "title" = PyStr <$> ProductUpdate.title payload /\
   update_data payload !! "description" = PyStr <$> ProductUpdate.description payload /\
   update_data payload !! "price" = PyFloat <$> ProductUpdate.price payload /\
   update_data payload !! "currency" = PyStr <$> ProductUpdate.currency payload /\
   update_data payload !! "images"
   = (fun l => PyList (map PyStr l)) <$> ProductUpdate.images payload /\
   update_data payload !! "category" = PyStr <$> ProductUpdate.category payload /\
   update_data payload !! "stock" = PyInt <$> ProductUpdate.stock payload /\
   update_data payload !! "featured" = PyBool <$> ProductUpdate.featured payload)
  /\ (forall k,
        k ∉ ["title"; "description"; "price"; "currency"; "images"; "category";
             "stock"; "featured"] ->
        update_data payload !! k = None)
  /\ (forall k, update_data payload !! k <> Some PyNone).
Proof.
  split; [apply update_data_lookup |]. split; [apply update_data_other |].
  intros k Hk. unfold update_data in Hk.
  apply elem_of_list_to_map_2, list_elem_of_In, filter_In in Hk as [_ Hk].
  discriminate Hk.
Qed.

(** X17: a successful [update_product] writes the fields of the payload over
    those of the one document it matches and returns [{"updated": true}]: a key
    of the payload takes the payload's value, every other key of the document
    keeps its value, and every other document and every order is as before. *)
Theorem update_product_sets_given_fields w d product_id oid payload f :
  db w = Some d ->
  ObjectId (PyStr product_id) = Return oid ->
  refuses (update_data payload) = None ->
  product d !! oid = Some f ->
  exists d' f',
    update_product w product_id payload
    = (Return (PyDict [("updated", PyBool true)]),
       {| db := Some d'; stripe_sessions := stripe_sessions w |}) /\
    order d' = order d /\
    (forall k, k <> oid -> product d' !! k = product d !! k) /\
    product d' !! oid = Some f' /\
    (forall k,
       f' !! k = match update_data payload !! k with
                 | Some v => Some v
                 | None => f !! k
                 end).
Proof.
  intros Hd Hoid Hok Hf. unfold update_product, update_one, with_products.
  rewrite Hd, Hoid, Hok, Hf. simpl.
  eexists _, _. split; [reflexivity |]. simpl. split; [reflexivity |].
  split; [intros k Hk; apply lookup_insert_ne; congruence |].
  split; [apply lookup_insert_eq |].
  intros k. rewrite lookup_union.
  destruct (update_data payload !! k), (f !! k); reflexivity.
Qed.

(** X18: [update_product] never adds or removes a document (there is no
    upsert): whatever the identifier and the payload, the catalog has the same
    identifiers afterwards. *)
Theorem update_product_keeps_identifiers w d d' product_id payload :
  db w = Some d ->
  db (update_product w product_id payload).2 = Some d' ->
  dom (product d') = dom (product d).
Proof.
  intros Hd. unfold update_product, update_one, with_products. rewrite Hd.
  destruct (ObjectId (PyStr product_id)) as [e|oid]; simpl;
    [rewrite Hd; congruence |].
  destruct (refuses (update_data payload)); simpl; [rewrite Hd; congruence |].
  destruct (product d !! oid) as [f|] eqn:Hf; simpl; intros [= <-]; simpl.
  - apply dom_insert_lookup_L. eauto.
  - reflexivity.
Qed.

(** X19: maintaining the catalog never touches the order history or the
    processor: after [update_product] or [delete_product], successful or not,
    the stored orders and the session requests are what they were. *)
Theorem maintenance_keeps_orders w product_id payload :
  (order <$> db (update_product w product_id payload).2) = (order <$> db w) /\
  stripe_sessions (update_product w product_id payload).2 = stripe_sessions w /\
  (order <$> db (delete_product w product_id).2) = (order <$> db w) /\
  stripe_sessions (delete_product w product_id).2 = stripe_sessions w.
Proof.
  unfold update_product, delete_product, with_products.
  destruct (db w) as [d|] eqn:Hd; simpl; [| rewrite Hd; auto].
  destruct (ObjectId (PyStr product_id)) as [e|oid]; simpl; [rewrite Hd; auto |].
  repeat split.
  - destruct (refuses (update_data payload)); simpl; [rewrite Hd; reflexivity |].
    destruct (snd (update_one (product d) oid (update_data payload)) =? 0); reflexivity.
  - destruct (refuses (update_data payload)); simpl; [reflexivity |].
    destruct (snd (update_one (product d) oid (update_data payload)) =? 0); reflexivity.
  - destruct (snd (delete_one (product d) oid) =? 0); reflexivity.
  - destruct (snd (delete_one (product d) oid) =? 0); reflexivity.
Qed.

(** X20: for an identifier the catalog does not hold, [update_product] and
    [delete_product] both answer 404 and leave every document in place. *)
Theorem maintenance_of_unknown_product_is_404 w d product_id oid payload :
  db w = Some d ->
  ObjectId (PyStr product_id) = Return oid ->
  product d !! oid = None ->
  refuses (update_data payload) = None ->
  update_product w product_id payload
  = (Raise (HTTPException 404 "Product not found"), with_products w d (product d))
  /\ delete_product w product_id
     = (Raise (HTTPException 404 "Product not found"), with_products w d (product d)).
Proof.
  intros Hd Hoid Hf Hok.
  unfold update_product, delete_product, update_one, delete_one.
  rewrite Hd, Hoid, Hok, Hf. split; reflexivity.
Qed.

(** X21: [update_product] is idempotent: sending the same update again gives
    the same answer and leaves the world the first one left. *)
Theorem update_product_is_idempotent w product_id payload :
  update_product (update_product w product_id payload).2 product_id payload
  = update_product w product_id payload.
Proof.
  unfold update_product at 2 3. unfold update_one, with_products.
  destruct (db w) as [d|] eqn:Hd; simpl.
  - destruct (ObjectId (PyStr product_id)) as [e|oid] eqn:Hoid; simpl.
    + unfold update_product. rewrite Hd, Hoid. reflexivity.
    + destruct (refuses (update_data payload)) as [e|] eqn:Hok; simpl.
      * unfold update_product. rewrite Hd, Hoid, Hok. reflexivity.
      * destruct (product d !! oid) as [f|] eqn:Hf; simpl.
        -- unfold update_product, update_one, with_products. simpl.
           rewrite Hoid, Hok, lookup_insert_eq. simpl.
           rewrite insert_insert_eq, union_absorbs. reflexivity.
        -- unfold update_product, update_one, with_products. simpl.
           rewrite Hoid, Hok, Hf. reflexivity.
  - unfold update_product. rewrite Hd. reflexivity.
Qed.

(** X22: a successful [delete_product] removes the one document with that
    identifier and nothing else, and returns [{"deleted": true}]; asking again
    is answered with 404 and changes nothing more. *)
Theorem delete_product_removes_that_product w d product_id oid f :
  db w = Some d ->
  ObjectId (PyStr product_id) = Return oid ->
  product d !! oid = Some f ->
  exists d',
    delete_product w product_id
    = (Return (PyDict [("deleted", PyBool true)]),
       {| db := Some d'; stripe_sessions := stripe_sessions w |}) /\
    order d' = order d /\
    product d' !! oid = None /\
    (forall k, k <> oid -> product d' !! k = product d !! k) /\
    delete_product (delete_product w product_id).2 product_id
    = (Raise (HTTPException 404 "Product not found"),
       (delete_product w product_id).2).
Proof.
  intros Hd Hoid Hf. unfold delete_product, delete_one, with_products.
  rewrite Hd, Hoid, Hf. simpl.
  eexists. split; [reflexivity |]. simpl. split; [reflexivity |].
  split; [apply lookup_delete_eq |].
  split; [intros k Hk; apply lookup_delete_ne; congruence |].
  rewrite lookup_delete_eq. reflexivity.
Qed.

(** X23: once a product is deleted, a checkout whose cart names it is aborted
    in either mode: the handler raises and neither stores an order nor
    requests a session. *)
Theorem deleted_product_aborts_checkout env w d product_id oid f req it v :
  db w = Some d ->
  ObjectId (PyStr product_id) = Return oid ->
  product d !! oid = Some f ->
  it ∈ CheckoutRequest.items req ->
  it !! "product_id" = Some v ->
  ObjectId v = Return oid ->
  exists e,
    checkout env (delete_product w product_id).2 req
    = (Raise e, (delete_product w product_id).2).
Proof.
  intros Hd Hoid Hf Hin Hv Hv'.
  apply checkout_unresolvable. apply Exists_exists. exists it. split; [exact Hin |].
  unfold delete_product, delete_one, with_products. rewrite Hd, Hoid, Hf. simpl.
  eexists _, v, oid. split; [reflexivity |]. simpl.
  split; [exact Hv |]. split; [exact Hv' |]. apply lookup_delete_eq.
Qed.

(** X24: a price set by [update_product] is the price of the next checkout:
    a cart line naming the product is stored with the new unit price and
    with subtotal new price times quantity, and the amount sent to the
    processor is the new price times one hundred cut to an integer. No lower
    bound is put on the new price. *)
Theorem repriced_product_is_sold_at_new_price
    w d product_id oid payload f p t it v q :
  db w = Some d ->
  ObjectId (PyStr product_id) = Return oid ->
  refuses (update_data payload) = None ->
  product d !! oid = Some f ->
  ProductUpdate.price payload = Some p ->
  ProductUpdate.title payload = None ->
  f !! "title" = Some (PyStr t) ->
  it !! "product_id" = Some v ->
  ObjectId v = Return oid ->
  py_int (get it "quantity" (PyInt 1)) = Return q ->
  is_infinity (float_of_Z q) = false ->
  simulated_line (update_product w product_id payload).2 it
  = Return (OrderItem.Build oid t p q (p * float_of_Z q)%float)
  /\ forall li,
       stripe_line (update_product w product_id payload).2 it = Return li ->
       float_to_int (p * 100)%float
       = Return (PriceData.unit_amount (LineItem.price_data li)).
Proof.
  intros Hd Hoid Hok Hf Hp Ht Hft Hv Hv' Hq Hfin.
  destruct (update_data_lookup payload) as (Htitle & _ & Hprice & _).
  rewrite Hp in Hprice. rewrite Ht in Htitle. simpl in Hprice, Htitle.
  assert (lookup_product (update_product w product_id payload).2 it
          = Return {| _id := oid; fields := update_data payload ∪ f |}) as Hl.
  { unfold update_product, update_one, with_products.
    rewrite Hd, Hoid, Hok, Hf. simpl.
    unfold lookup_product, collection_product, subscript, find_one. simpl.
    rewrite Hv. simpl. rewrite Hv'. simpl. rewrite lookup_insert_eq. reflexivity. }
  assert (get (update_data payload ∪ f) "price" (PyInt 0) = PyFloat p) as Hgp.
  { unfold get. rewrite lookup_union, Hprice. destruct (f !! "price"); reflexivity. }
  assert (get (update_data payload ∪ f) "title" (PyStr "") = PyStr t) as Hgt.
  { unfold get. rewrite lookup_union, Htitle, Hft. reflexivity. }
  split.
  - unfold simulated_line. rewrite Hl. simpl. rewrite Hq. simpl.
    rewrite Hgp, Hgt. simpl. unfold float_mul_int, int_to_float. rewrite Hfin.
    reflexivity.
  - intros li Hli.
    apply stripe_line_Return in Hli as (prod & price & Hprod & Hprice' & Ha & _).
    rewrite Hl in Hprod. injection Hprod as <-. simpl in Hprice'.
    rewrite Hgp in Hprice'. simpl in Hprice'. injection Hprice' as <-. exact Ha.
Qed.
End Maintenance.

(** ** Listings *)

(** X25: [list_products] hands back one dict per stored document, each with
    the document's identifier as a string under ["id"] and every other field
    unchanged (a stored field named ["id"] is hidden by it); and an identifier
    listed this way, sent back as the [product_id] of a cart line, resolves at
    checkout to the document it was listed for. *)
Theorem listed_identifier_resolves_at_checkout
    {L : Libraries} {D : Documents} w d docs p :
  db w = Some d ->
  get_documents w "product" = Return docs ->
  p ∈ docs ->
  product d !! _id p = Some (fields p) ->
  ObjectId (PyStr (_id p)) = Return (_id p) ->
  exists listed,
    list_products w = Return listed /\
    length listed = length docs /\
    expose_id p ∈ listed /\
    expose_id p !! "id" = Some (PyStr (_id p)) /\
    (forall k, k <> "id" -> expose_id p !! k = fields p !! k) /\
    (forall it,
       it !! "product_id" = expose_id p !! "id" ->
       lookup_product w it = Return p).
Proof.
  intros Hd Hdocs Hin Hp Hoid.
  exists (map expose_id docs). unfold list_products. rewrite Hdocs. simpl.
  split; [reflexivity |]. split; [apply length_map |].
  split; [apply list_elem_of_fmap; eauto |].
  unfold expose_id. split; [apply lookup_insert_eq |].
  split; [intros k Hk; apply lookup_insert_ne; congruence |].
  intros it Hit. rewrite lookup_insert_eq in Hit.
  unfold lookup_product, collection_product, subscript, find_one.
  rewrite Hd. simpl. rewrite Hit. simpl. rewrite Hoid. simpl. rewrite Hp. simpl.
  destruct p; reflexivity.
Qed.

(** ** The further properties on the sample catalog *)

Import Double Backoffice.

Lemma simulated_first_failure_reaches_caller_witness :
  STRIPE_SECRET simulated = "" /\
  Forall2 (goes_through world) [line chair_id 1] [chair_item 1] /\
  simulated_line world worded = Raise ValueError /\
  checkout (C := processor_up) simulated world
    (cart [line chair_id 1; worded; line missing_id 1])
  = (Raise ValueError, world).
Proof.
  assert (Forall2 (goes_through world) [line chair_id 1] [chair_item 1]) as Hbefore.
  { constructor; [vm_compute; reflexivity | constructor]. }
  assert (simulated_line world worded = Raise ValueError) as Hit
    by (vm_compute; reflexivity).
  split; [reflexivity |]. split; [exact Hbefore |]. split; [exact Hit |].
  apply (simulated_first_failure_reaches_caller (C := processor_up) simulated world
           (cart [line chair_id 1; worded; line missing_id 1])
           [line chair_id 1] [chair_item 1] worded [line missing_id 1] ValueError
           eq_refl eq_refl Hbefore Hit).
Defined.

Lemma stripe_first_failure_becomes_400_witness :
  STRIPE_SECRET configured <> "" /\
  Forall2 (is_sent world) [line chair_id 1] [chair_sent 1] /\
  stripe_line world worded = Raise ValueError /\
  checkout (C := processor_up) configured world
    (cart [line chair_id 1; worded; line missing_id 1])
  = (Raise (HTTPException 400 (str_exn ValueError)), world).
Proof.
  assert (STRIPE_SECRET configured <> "") as Henv by (simpl; discriminate).
  assert (Forall2 (is_sent world) [line chair_id 1] [chair_sent 1]) as Hbefore.
  { constructor; [vm_compute; reflexivity | constructor]. }
  assert (stripe_line world worded = Raise ValueError) as Hit
    by (vm_compute; reflexivity).
  split; [exact Henv |]. split; [exact Hbefore |]. split; [exact Hit |].
  apply (stripe_first_failure_becomes_400 (C := processor_up) configured world
           (cart [line chair_id 1; worded; line missing_id 1])
           [line chair_id 1] [chair_sent 1] worded [line missing_id 1] ValueError
           Henv eq_refl Hbefore Hit).
Defined.

Lemma missing_product_id_is_KeyError_witness :
  db world = Some catalog /\
  nameless !! "product_id" = None /\
  Forall2 (goes_through world) [line chair_id 1] [chair_item 1] /\
  Forall2 (is_sent world) [line chair_id 1] [chair_sent 1] /\
  checkout (C := processor_up) configured world
    (CheckoutRequest.Build ([line chair_id 1] ++ nameless :: []) "asha@example.com")
  = (Raise (if str_is_empty (STRIPE_SECRET configured) then KeyError "product_id"
            else HTTPException 400 (str_exn (KeyError "product_id"))), world)
  /\ status_code_of
       (checkout (C := processor_up) configured world
          (CheckoutRequest.Build ([line chair_id 1] ++ nameless :: [])
             "asha@example.com")).1
     = (if str_is_empty (STRIPE_SECRET configured) then 500 else 400).
Proof.
  assert (nameless !! "product_id" = None) as Hpid by (vm_compute; reflexivity).
  assert (Forall2 (goes_through world) [line chair_id 1] [chair_item 1]) as Hsim.
  { constructor; [vm_compute; reflexivity | constructor]. }
  assert (Forall2 (is_sent world) [line chair_id 1] [chair_sent 1]) as Hstripe.
  { constructor; [vm_compute; reflexivity | constructor]. }
  split; [reflexivity |]. split; [exact Hpid |]. split; [exact Hsim |].
  split; [exact Hstripe |].
  apply (missing_product_id_is_KeyError (C := processor_up) configured world catalog
           [line chair_id 1] [chair_item 1] [chair_sent 1] nameless []
           "asha@example.com" eq_refl Hpid Hsim Hstripe).
Defined.

Lemma null_quantity_is_TypeError_witness :
  lookup_product world unquantified = Return {| _id := chair_id; fields := chair |} /\
  unquantified !! "quantity" = Some PyNone /\
  checkout (C := processor_up) simulated world
    (CheckoutRequest.Build ([] ++ unquantified :: []) "asha@example.com")
  = (Raise (if str_is_empty (STRIPE_SECRET simulated) then TypeError
            else HTTPException 400 (str_exn TypeError)), world)
  /\ status_code_of
       (checkout (C := processor_up) simulated world
          (CheckoutRequest.Build ([] ++ unquantified :: []) "asha@example.com")).1
     = (if str_is_empty (STRIPE_SECRET simulated) then 500 else 400).
Proof.
  assert (lookup_product world unquantified
          = Return {| _id := chair_id; fields := chair |}) as Hprod
    by (vm_compute; reflexivity).
  assert (unquantified !! "quantity" = Some PyNone) as Hq by (vm_compute; reflexivity).
  assert (Forall2 (goes_through world) [] []) as Hsim by constructor.
  assert (Forall2 (is_sent world) [] []) as Hstripe by constructor.
  split; [exact Hprod |]. split; [exact Hq |].
  apply (null_quantity_is_TypeError (C := processor_up) simulated world
           {| _id := chair_id; fields := chair |} [] [] [] unquantified []
           "asha@example.com" Hprod Hq Hsim Hstripe).
Defined.

Lemma empty_cart_stores_empty_order_witness :
  STRIPE_SECRET simulated = "" /\
  db world = Some catalog /\
  EmailStr "asha@example.com" = Return "asha@example.com" /\
  checkout (C := processor_up) simulated world
    (CheckoutRequest.Build [] "asha@example.com")
  = (Return (simulated_body "order-0"),
     {| db := Some (with_order catalog "order-0"
                      (Order.Build "asha@example.com" [] 0%float "inr" "pending" None));
        stripe_sessions := [] |}).
Proof.
  assert (EmailStr "asha@example.com" = Return "asha@example.com") as Hmail
    by (vm_compute; reflexivity).
  split; [reflexivity |]. split; [reflexivity |]. split; [exact Hmail |].
  apply (empty_cart_stores_empty_order (C := processor_up) simulated world catalog
           "asha@example.com" "asha@example.com" eq_refl eq_refl Hmail).
Defined.

Lemma order_lines_are_catalog_snapshots_witness :
  STRIPE_SECRET simulated = "" /\
  exists d order_id o,
    db world = Some d /\
    db (checkout (C := processor_up) simulated world
          (cart [line tray_id 1; line chair_id 2])).2
    = Some (with_order d order_id o) /\
    Forall2
      (fun it oi =>
         exists v f,
           it !! "product_id" = Some v /\
           ObjectId v = Return (OrderItem.product_id oi) /\
           product d !! OrderItem.product_id oi = Some f /\
           get f "title" (PyStr "") = PyStr (OrderItem.title oi))
      [line tray_id 1; line chair_id 2] (Order.items o).
Proof.
  split; [reflexivity |].
  apply (order_lines_are_catalog_snapshots (C := processor_up) simulated world
           (cart [line tray_id 1; line chair_id 2]) (simulated_body "order-0") _ eq_refl).
  vm_compute. reflexivity.
Defined.

Lemma order_needs_accepted_address_witness :
  STRIPE_SECRET simulated = "" /\
  EmailStr "asha.example.com" = Raise ValidationError /\
  Forall2 (goes_through world) [line chair_id 1] [chair_item 1] /\
  checkout (C := processor_up) simulated world
    (CheckoutRequest.Build [line chair_id 1] "asha.example.com")
  = (Raise ValidationError, world).
Proof.
  assert (EmailStr "asha.example.com" = Raise ValidationError) as Hmail
    by (vm_compute; reflexivity).
  assert (Forall2 (goes_through world) [line chair_id 1] [chair_item 1]) as Hlines.
  { constructor; [vm_compute; reflexivity | constructor]. }
  split; [reflexivity |]. split; [exact Hmail |]. split; [exact Hlines |].
  apply (proj1 (order_needs_accepted_address (C := processor_up) simulated world
                  (CheckoutRequest.Build [line chair_id 1] "asha.example.com") eq_refl)
           ValidationError [chair_item 1] Hmail Hlines).
Defined.

Lemma simulated_checkout_sends_no_session_witness :
  STRIPE_SECRET simulated = "" /\
  stripe_sessions (checkout (C := processor_up) simulated world
                     (cart [line chair_id 2])).2
  = stripe_sessions world.
Proof.
  split; [reflexivity |].
  apply (simulated_checkout_sends_no_session (C := processor_up) simulated world
           (cart [line chair_id 2]) eq_refl).
Defined.


Lemma empty_cart_requests_empty_session_witness :
  STRIPE_SECRET configured <> "" /\
  stripe_sessions
    (checkout (C := processor_up) configured world
       (CheckoutRequest.Build [] "asha@example.com")).2
  = stripe_sessions world
    ++ [session_request configured (CheckoutRequest.Build [] "asha@example.com") []].
Proof.
  assert (STRIPE_SECRET configured <> "") as Henv by (simpl; discriminate).
  split; [exact Henv |].
  apply (empty_cart_requests_empty_session (C := processor_up) configured world
           "asha@example.com" Henv).
Defined.

Lemma stripe_checkout_status_is_200_or_400_witness :
  STRIPE_SECRET configured <> "" /\
  (status_code_of
     (checkout (C := processor_up) configured world (cart [nameless])).1 = 200
   \/ status_code_of
        (checkout (C := processor_up) configured world (cart [nameless])).1 = 400).
Proof.
  assert (STRIPE_SECRET configured <> "") as Henv by (simpl; discriminate).
  split; [exact Henv |].
  apply (stripe_checkout_status_is_200_or_400 (C := processor_up) configured world
           (cart [nameless]) Henv).
Defined.

Lemma branches_read_same_price_and_quantity_witness :
  simulated_line world (line tray_id 3)
  = Return (OrderItem.Build tray_id "Walnut tray" tray_price 3
              (tray_price * float_of_Z 3)%float) /\
  stripe_line world (line tray_id 3)
  = Return (LineItem.Build
              (PriceData.Build (PyStr "usd") (ProductData.Build (PyStr "Walnut tray"))
                 1998) 3) /\
  3 = 3 /\
  float_to_int (tray_price * 100)%float = Return 1998.
Proof.
  assert (simulated_line world (line tray_id 3)
          = Return (OrderItem.Build tray_id "Walnut tray" tray_price 3
                      (tray_price * float_of_Z 3)%float)) as Hsim
    by (vm_compute; reflexivity).
  assert (stripe_line world (line tray_id 3)
          = Return (LineItem.Build
                      (PriceData.Build (PyStr "usd")
                         (ProductData.Build (PyStr "Walnut tray")) 1998) 3)) as Hstripe
    by (vm_compute; reflexivity).
  split; [exact Hsim |]. split; [exact Hstripe |].
  apply (branches_read_same_price_and_quantity world (line tray_id 3) _ _ Hsim Hstripe).
Defined.

Lemma missing_fields_take_defaults_witness :
  lookup_product stockroom (reference bare_id) = Return {| _id := bare_id; fields := ∅ |} /\
  py_int (get (reference bare_id) "quantity" (PyInt 1)) = Return 1 /\
  is_infinity (float_of_Z 1) = false /\
  simulated_line stockroom (reference bare_id)
  = Return (OrderItem.Build bare_id "" 0 1 (0 * float_of_Z 1)%float)
  /\ stripe_line stockroom (reference bare_id)
     = Return (LineItem.Build
                 (PriceData.Build (PyStr "inr") (ProductData.Build (PyStr "Item")) 0)
                 1).
Proof.
  assert (lookup_product stockroom (reference bare_id)
          = Return {| _id := bare_id; fields := ∅ |}) as Hprod
    by (vm_compute; reflexivity).
  assert (py_int (get (reference bare_id) "quantity" (PyInt 1)) = Return 1) as Hq
    by (vm_compute; reflexivity).
  assert (is_infinity (float_of_Z 1) = false) as Hfin by (vm_compute; reflexivity).
  split; [exact Hprod |]. split; [exact Hq |]. split; [exact Hfin |].
  apply (missing_fields_take_defaults stockroom (reference bare_id)
           {| _id := bare_id; fields := ∅ |} 1 Hprod
           (lookup_empty _) (lookup_empty _) (lookup_empty _) Hq Hfin).
Defined.

Lemma unit_amount_within_one_of_rounding_witness :
  stripe_line world (line tray_id 1)
  = Return (LineItem.Build
              (PriceData.Build (PyStr "usd") (ProductData.Build (PyStr "Walnut tray"))
                 1998) 1) /\
  exists prod price rounded,
    lookup_product world (line tray_id 1) = Return prod /\
    py_float (get (fields prod) "price" (PyInt 0)) = Return price /\
    round_minor_units price = Return rounded /\
    Z.abs (rounded - 1998) <= 1 /\
    Z.abs 1998 <= Z.abs rounded.
Proof.
  assert (stripe_line world (line tray_id 1)
          = Return (LineItem.Build
                      (PriceData.Build (PyStr "usd")
                         (ProductData.Build (PyStr "Walnut tray")) 1998) 1)) as Hli
    by (vm_compute; reflexivity).
  split; [exact Hli |].
  apply (unit_amount_within_one_of_rounding world (line tray_id 1) _ Hli).
Defined.

Lemma login_token_only_for_admin_witness :
  login unset (AuthRequest.Build "WoodenMart@gmail.com" "woodenmart@1")
  = Return (AuthResponse.Build "admin-token" "admin" "WoodenMart@gmail.com")
  /\ login unset (AuthRequest.Build "woodenmart@gmail.com" "WoodenMart@1")
     = Raise (HTTPException 401 "Invalid credentials").
Proof.
  split.
  - apply (proj1 (login_token_only_for_admin unset
                    (AuthRequest.Build "WoodenMart@gmail.com" "woodenmart@1"))).
    split; [vm_compute; reflexivity |]. split; [reflexivity |].
    exists "WoodenMart@gmail.com". split; [vm_compute; reflexivity | reflexivity].
  - apply (proj2 (login_token_only_for_admin unset
                    (AuthRequest.Build "woodenmart@gmail.com" "WoodenMart@1"))).
    right. simpl. discriminate.
Defined.

Lemma update_product_sets_given_fields_witness :
  db world = Some catalog /\
  ObjectId (PyStr chair_id) = Return chair_id /\
  refuses (update_data (reprice 120)) = None /\
  product catalog !! chair_id = Some chair /\
  exists d' f',
    update_product world chair_id (reprice 120)
    = (Return (PyDict [("updated", PyBool true)]),
       {| db := Some d'; stripe_sessions := stripe_sessions world |}) /\
    order d' = order catalog /\
    (forall k, k <> chair_id -> product d' !! k = product catalog !! k) /\
    product d' !! chair_id = Some f' /\
    (forall k,
       f' !! k = match update_data (reprice 120) !! k with
                 | Some v => Some v
                 | None => chair !! k
                 end).
Proof.
  assert (ObjectId (PyStr chair_id) = Return chair_id) as Hoid
    by (vm_compute; reflexivity).
  assert (product catalog !! chair_id = Some chair) as Hf by (vm_compute; reflexivity).
  split; [reflexivity |]. split; [exact Hoid |]. split; [reflexivity |].
  split; [exact Hf |].
  assert (refuses (update_data (reprice 120)) = None) as Hok by reflexivity.
  apply (update_product_sets_given_fields world catalog chair_id chair_id (reprice 120)
           chair eq_refl Hoid Hok Hf).
Defined.

Lemma update_product_keeps_identifiers_witness :
  db world = Some catalog /\
  db (update_product world chair_id (reprice 120)).2
  = Some {| product := <[chair_id := update_data (reprice 120) ∪ chair]> (product catalog);
            order := [] |} /\
  dom (<[chair_id := update_data (reprice 120) ∪ chair]> (product catalog))
  = dom (product catalog).
Proof.
  assert (db (update_product world chair_id (reprice 120)).2
          = Some {| product := <[chair_id := update_data (reprice 120) ∪ chair]>
                                 (product catalog);
                    order := [] |}) as Hd'
    by (vm_compute; reflexivity).
  split; [reflexivity |]. split; [exact Hd' |].
  apply (update_product_keeps_identifiers world catalog _ chair_id (reprice 120)
           eq_refl Hd').
Defined.

Lemma maintenance_of_unknown_product_is_404_witness :
  db world = Some catalog /\
  ObjectId (PyStr missing_id) = Return missing_id /\
  product catalog !! missing_id = None /\
  refuses (update_data (reprice 120)) = None /\
  update_product world missing_id (reprice 120)
  = (Raise (HTTPException 404 "Product not found"),
     with_products world catalog (product catalog))
  /\ delete_product world missing_id
     = (Raise (HTTPException 404 "Product not found"),
        with_products world catalog (product catalog)).
Proof.
  assert (ObjectId (PyStr missing_id) = Return missing_id) as Hoid
    by (vm_compute; reflexivity).
  assert (product catalog !! missing_id = None) as Hf by (vm_compute; reflexivity).
  split; [reflexivity |]. split; [exact Hoid |]. split; [exact Hf |].
  split; [reflexivity |].
  assert (refuses (update_data (reprice 120)) = None) as Hok by reflexivity.
  apply (maintenance_of_unknown_product_is_404 world catalog missing_id missing_id
           (reprice 120) eq_refl Hoid Hf Hok).
Defined.

Lemma delete_product_removes_that_product_witness :
  db world = Some catalog /\
  ObjectId (PyStr tray_id) = Return tray_id /\
  product catalog !! tray_id = Some tray /\
  exists d',
    delete_product world tray_id
    = (Return (PyDict [("deleted", PyBool true)]),
       {| db := Some d'; stripe_sessions := stripe_sessions world |}) /\
    order d' = order catalog /\
    product d' !! tray_id = None /\
    (forall k, k <> tray_id -> product d' !! k = product catalog !! k) /\
    delete_product (delete_product world tray_id).2 tray_id
    = (Raise (HTTPException 404 "Product not found"),
       (delete_product world tray_id).2).
Proof.
  assert (ObjectId (PyStr tray_id) = Return tray_id) as Hoid
    by (vm_compute; reflexivity).
  assert (product catalog !! tray_id = Some tray) as Hf by (vm_compute; reflexivity).
  split; [reflexivity |]. split; [exact Hoid |]. split; [exact Hf |].
  apply (delete_product_removes_that_product world catalog tray_id tray_id tray
           eq_refl Hoid Hf).
Defined.

Lemma deleted_product_aborts_checkout_witness :
  db world = Some catalog /\
  ObjectId (PyStr tray_id) = Return tray_id /\
  product catalog !! tray_id = Some tray /\
  line tray_id 1 ∈ [line chair_id 1; line tray_id 1] /\
  line tray_id 1 !! "product_id" = Some (PyStr tray_id) /\
  exists e,
    checkout (C := processor_up) simulated (delete_product world tray_id).2
      (cart [line chair_id 1; line tray_id 1])
    = (Raise e, (delete_product world tray_id).2).
Proof.
  assert (ObjectId (PyStr tray_id) = Return tray_id) as Hoid
    by (vm_compute; reflexivity).
  assert (product catalog !! tray_id = Some tray) as Hf by (vm_compute; reflexivity).
  assert (line tray_id 1 ∈ [line chair_id 1; line tray_id 1]) as Hin
    by (apply list_elem_of_further, list_elem_of_here).
  assert (line tray_id 1 !! "product_id" = Some (PyStr tray_id)) as Hv
    by (vm_compute; reflexivity).
  split; [reflexivity |]. split; [exact Hoid |]. split; [exact Hf |].
  split; [exact Hin |]. split; [exact Hv |].
  apply (deleted_product_aborts_checkout (C := processor_up) simulated world catalog
           tray_id tray_id tray (cart [line chair_id 1; line tray_id 1])
           (line tray_id 1) (PyStr tray_id) eq_refl Hoid Hf Hin Hv Hoid).
Defined.

Lemma repriced_product_is_sold_at_new_price_witness :
  db world = Some catalog /\
  ObjectId (PyStr chair_id) = Return chair_id /\
  product catalog !! chair_id = Some chair /\
  ProductUpdate.price (reprice (-5)) = Some (-5)%float /\
  chair !! "title" = Some (PyStr "Oak chair") /\
  line chair_id 2 !! "product_id" = Some (PyStr chair_id) /\
  py_int (get (line chair_id 2) "quantity" (PyInt 1)) = Return 2 /\
  is_infinity (float_of_Z 2) = false /\
  simulated_line (update_product world chair_id (reprice (-5))).2 (line chair_id 2)
  = Return (OrderItem.Build chair_id "Oak chair" (-5) 2 (-5 * float_of_Z 2)%float)
  /\ forall li,
       stripe_line (update_product world chair_id (reprice (-5))).2 (line chair_id 2)
       = Return li ->
       float_to_int (-5 * 100)%float
       = Return (PriceData.unit_amount (LineItem.price_data li)).
Proof.
  assert (ObjectId (PyStr chair_id) = Return chair_id) as Hoid
    by (vm_compute; reflexivity).
  assert (product catalog !! chair_id = Some chair) as Hf by (vm_compute; reflexivity).
  assert (chair !! "title" = Some (PyStr "Oak chair")) as Ht by (vm_compute; reflexivity).
  assert (line chair_id 2 !! "product_id" = Some (PyStr chair_id)) as Hv
    by (vm_compute; reflexivity).
  assert (py_int (get (line chair_id 2) "quantity" (PyInt 1)) = Return 2) as Hq
    by (vm_compute; reflexivity).
  assert (is_infinity (float_of_Z 2) = false) as Hfin by (vm_compute; reflexivity).
  assert (refuses (update_data (reprice (-5))) = None) as Hok by reflexivity.
  split; [reflexivity |]. split; [exact Hoid |]. split; [exact Hf |].
  split; [reflexivity |]. split; [exact Ht |]. split; [exact Hv |].
  split; [exact Hq |]. split; [exact Hfin |].
  apply (repriced_product_is_sold_at_new_price world catalog
           chair_id chair_id
           (reprice (-5)) chair (-5)%float "Oak chair" (line chair_id 2) (PyStr chair_id) 2
           eq_refl Hoid Hok Hf eq_refl eq_refl Ht Hv Hoid Hq Hfin).
Defined.

Lemma listed_identifier_resolves_at_checkout_witness :
  db world = Some catalog /\
  get_documents world "product"
  = Return (map (fun kf => {| _id := fst kf; fields := snd kf |})
              (map_to_list (product catalog))) /\
  {| _id := chair_id; fields := chair |}
  ∈ map (fun kf => {| _id := fst kf; fields := snd kf |}) (map_to_list (product catalog)) /\
  ObjectId (PyStr chair_id) = Return chair_id /\
  exists listed,
    list_products world = Return listed /\
    length listed
    = length (map (fun kf => {| _id := fst kf; fields := snd kf |})
                (map_to_list (product catalog))) /\
    expose_id {| _id := chair_id; fields := chair |} ∈ listed /\
    expose_id {| _id := chair_id; fields := chair |} !! "id" = Some (PyStr chair_id) /\
    (forall k, k <> "id" ->
               expose_id {| _id := chair_id; fields := chair |} !! k = chair !! k) /\
    (forall it,
       it !! "product_id" = expose_id {| _id := chair_id; fields := chair |} !! "id" ->
       lookup_product world it = Return {| _id := chair_id; fields := chair |}).
Proof.
  assert ({| _id := chair_id; fields := chair |}
          ∈ map (fun kf => {| _id := fst kf; fields := snd kf |})
              (map_to_list (product catalog))) as Hin.
  { apply list_elem_of_fmap. exists (chair_id, chair). split; [reflexivity |].
    apply elem_of_map_to_list. vm_compute. reflexivity. }
  assert (ObjectId (PyStr chair_id) = Return chair_id) as Hoid
    by (vm_compute; reflexivity).
  assert (product catalog !! chair_id = Some chair) as Hf by (vm_compute; reflexivity).
  assert (get_documents world "product"
          = Return (map (fun kf => {| _id := fst kf; fields := snd kf |})
                      (map_to_list (product catalog)))) as Hdocs
    by reflexivity.
  split; [reflexivity |]. split; [exact Hdocs |]. split; [exact Hin |].
  split; [exact Hoid |].
  apply (listed_identifier_resolves_at_checkout world catalog _
           {| _id := chair_id; fields := chair |} eq_refl Hdocs Hin Hf Hoid).
Defined.
